(** * go-chip8: the CPU core, the graphics buffer and the run loop

    A shallow embedding of package [chip8] (the CPU in [chip8.go], the
    graphics buffer in [graphics.go], the keypad in [keypad.go]) and the
    properties of it that the specification states.

    Conventions.
    - Go's [byte] and [uint16] values are integers of [Z]; every
      arithmetic operation of the source that can leave the type's range
      is followed by the conversion ([byte_], [uint16]) that Go applies.
    - Go's fixed-size arrays are lists; reading or writing one goes
      through [at_]/[store_at], which compare the index with the array's
      declared size and panic outside it, as the Go runtime does.
    - A method with a pointer receiver is a computation in the monad [M]:
      it takes the receiver's state and either returns a value together
      with the state it leaves behind, or panics. *)

From Stdlib Require Import ZArith Lia Bool.
From stdpp Require Import base numbers list sets strings pretty.

Local Open Scope Z_scope.

(** ** Integer types *)

Definition byte_ (z : Z) : Z := z mod 256.
Definition uint16 (z : Z) : Z := z mod 65536.

(** ** Errors

    Go's [error] values that occur in the package: the two sentinels
    [ErrQuit] and [io.EOF] (compared by identity), the [*UnknownOpcode]
    struct, and the strings built by [errors.New] and [fmt.Errorf]. *)

Inductive error : Type :=
  | ErrQuit
  | EOF
  | UnknownOpcode (Opcode : Z)
  | errorString (s : string).

Definition hexDigit (d : Z) : string :=
  match d with
  | 0 => "0" | 1 => "1" | 2 => "2" | 3 => "3"
  | 4 => "4" | 5 => "5" | 6 => "6" | 7 => "7"
  | 8 => "8" | 9 => "9" | 10 => "A" | 11 => "B"
  | 12 => "C" | 13 => "D" | 14 => "E" | _ => "F"
  end%string.

(** [fmt.Sprintf("%04X", op)] for a [uint16]. *)
Definition hex04 (op : Z) : string :=
  (hexDigit (Z.land (Z.shiftr op 12) 15) +:+ hexDigit (Z.land (Z.shiftr op 8) 15)
   +:+ hexDigit (Z.land (Z.shiftr op 4) 15) +:+ hexDigit (Z.land op 15))%string.

(** The [Error()] method. *)
Definition Error (e : error) : string :=
  match e with
  | ErrQuit => "chip8: shutting down"
  | EOF => "EOF"
  | UnknownOpcode op => "chip8: unknown opcode: 0x" +:+ hex04 op
  | errorString s => s
  end%string.

(** [err == ErrQuit]: identity with the sentinel. *)
Definition is_ErrQuit (e : error) : bool :=
  match e with ErrQuit => true | _ => false end.

(** ** Panics and the monad of methods *)

Inductive panic : Type :=
  | IndexOutOfRange (i len : Z)
  | SliceOutOfRange (lo hi cap : Z).

Inductive outcome (S A : Type) : Type :=
  | Returns (a : A) (s : S)
  | Panics (p : panic).
Arguments Returns {S A} a s.
Arguments Panics {S A} p.

Definition M (S A : Type) : Type := S -> outcome S A.

Definition ret {S A} (a : A) : M S A := fun s => Returns a s.

Definition bind {S A B} (m : M S A) (f : A -> M S B) : M S B :=
  fun s => match m s with
           | Returns a s' => f a s'
           | Panics p => Panics p
           end.

Definition gets {S A} (f : S -> A) : M S A := fun s => Returns (f s) s.
Definition modify {S} (f : S -> S) : M S unit := fun s => Returns tt (f s).
Definition throw {S A} (p : panic) : M S A := fun _ => Panics p.

Declare Scope go_scope.
Delimit Scope go_scope with go.
Notation "x <- m ;; k" := (bind m (fun x => k))
  (at level 100, m at next level, right associativity) : go_scope.
Notation "m ;;; k" := (bind m (fun _ => k))
  (at level 100, right associativity) : go_scope.
Local Open Scope go_scope.

(** [for _, i := range xs { acc = body(i, acc) }] *)
Fixpoint for_each {S A} (xs : list Z) (body : Z -> A -> M S A) (acc : A) : M S A :=
  match xs with
  | [] => ret acc
  | i :: xs' => acc' <- body i acc ;; for_each xs' body acc'
  end.

(** [arr[i]] on an array of declared size [n]. *)
Definition at_ {S} (n : Z) (arr : S -> list Z) (i : Z) : M S Z :=
  fun s => if (0 <=? i) && (i <? n)
           then Returns (arr s !!! Z.to_nat i) s
           else Panics (IndexOutOfRange i n).

(** [arr[i] = v] on an array of declared size [n]. *)
Definition store_at {S} (n : Z) (arr : S -> list Z) (upd : list Z -> S -> S)
    (i v : Z) : M S unit :=
  fun s => if (0 <=? i) && (i <? n)
           then Returns tt (upd (<[Z.to_nat i := v]> (arr s)) s)
           else Panics (IndexOutOfRange i n).

(** ** The graphics buffer ([graphics.go]) *)

Definition GraphicsWidth : Z := 64.
Definition GraphicsHeight : Z := 32.

(** A [Display] renders the pixel array and may fail. *)
Definition Display : Type := list Z -> option error.

Definition NullDisplay : Display := fun _ => None.
Definition DefaultDisplay : Display := NullDisplay.

Record Graphics : Type := mkGraphics {
  Pixels : list Z;             (* [GraphicsWidth * GraphicsHeight]byte *)
  Display_ : option Display    (* the embedded Display; None is nil *)
}.

Definition set_Pixels (px : list Z) (g : Graphics) : Graphics :=
  {| Pixels := px; Display_ := Display_ g |}.

Definition PixelCount : Z := GraphicsWidth * GraphicsHeight.

Module Gfx.

(** func (g *Graphics) Set(x, y uint16, on bool) (collision bool) *)
Definition Set_ (x y : Z) (on : bool) : M Graphics bool :=
  let a := uint16 (x + uint16 (y * GraphicsWidth)) in
  p <- at_ PixelCount Pixels a ;;
  let collision := p =? 0x01 in
  let v := if on then 0x01 else 0 in
  p' <- at_ PixelCount Pixels a ;;
  store_at PixelCount Pixels set_Pixels a (Z.lxor p' v) ;;;
  ret collision.

(** func (g *Graphics) WriteSprite(sprite []byte, x, y byte) (collision bool) *)
Definition WriteSprite (sprite : list Z) (x y : Z) : M Graphics bool :=
  let n := Z.of_nat (length sprite) in
  for_each (seqZ 0 n) (fun yl collision =>
    let r := sprite !!! Z.to_nat yl in
    for_each (seqZ 0 8) (fun xl collision =>
      let i := Z.shiftr 0x80 (byte_ xl) in
      let on := Z.land r (byte_ i) =? byte_ i in
      let xp := uint16 (uint16 x + uint16 xl) in
      let xp := if GraphicsWidth <=? xp then uint16 (xp - GraphicsWidth) else xp in
      let yp := uint16 (uint16 y + uint16 yl) in
      let yp := if GraphicsHeight <=? yp then uint16 (yp - GraphicsHeight) else yp in
      hit <- Set_ xp yp on ;;
      ret (if hit then true else collision)) collision) false.

(** func (g *Graphics) EachPixel(fn func(x, y uint16, addr int)) *)
Definition EachPixel (fn : Z -> Z -> Z -> M Graphics unit) : M Graphics unit :=
  for_each (seqZ 0 (GraphicsHeight - 1)) (fun y _ =>
    for_each (seqZ 0 (GraphicsWidth - 1)) (fun x _ =>
      let a := y * GraphicsWidth + x in
      fn (uint16 x) (uint16 y) a) tt) tt.

(** func (g *Graphics) Clear() *)
Definition Clear : M Graphics unit :=
  EachPixel (fun _ _ addr => store_at PixelCount Pixels set_Pixels addr 0).

(** func (g *Graphics) display() Display *)
Definition display : M Graphics Display :=
  d <- gets Display_ ;;
  match d with
  | None => ret DefaultDisplay
  | Some d => ret d
  end.

(** func (g *Graphics) Draw() error *)
Definition Draw : M Graphics (option error) :=
  d <- display ;;
  px <- gets Pixels ;;
  ret (d px).

End Gfx.

(** ** The outside world

    What the collaborators outside the package answer during one clock
    tick: the character of the next terminal event, and the number that
    [rand.Intn(255)] draws from a generator seeded with the current time. *)

Record World : Type := mkWorld {
  PollEvent : Z;     (* event.Ch of termbox.PollEvent() *)
  Intn255 : Z        (* rand.Intn(255): a number of [0, 255) *)
}.

(** ** The keypad ([keypad.go]) *)

(** A [Keypad] answers [GetKey() (byte, error)] from the world. *)
Definition Keypad : Type := World -> Z * option error.

Definition NullKeypad : Keypad :=
  fun _ => (0x00, Some (errorString "null keypad not usable")).

Definition DefaultKeypad : Keypad := NullKeypad.

Definition keyMap (ch : Z) : option Z :=
  if ch =? 49 then Some 0x01 else if ch =? 50 then Some 0x02
  else if ch =? 51 then Some 0x03 else if ch =? 52 then Some 0x0C
  else if ch =? 113 then Some 0x04 else if ch =? 119 then Some 0x05
  else if ch =? 101 then Some 0x06 else if ch =? 114 then Some 0x0D
  else if ch =? 97 then Some 0x07 else if ch =? 115 then Some 0x08
  else if ch =? 100 then Some 0x09 else if ch =? 102 then Some 0x0E
  else if ch =? 122 then Some 0x0A else if ch =? 120 then Some 0x00
  else if ch =? 99 then Some 0x0B else if ch =? 118 then Some 0x0F
  else None.

Definition escapeKey : Z := 48.   (* '0' *)

(** func (k *TermboxKeypad) GetKey() (byte, error) *)
Definition TermboxKeypad : Keypad :=
  fun w =>
    let ch := PollEvent w in
    if ch =? escapeKey then (0x00, Some ErrQuit)
    else match keyMap ch with
         | None => (0x00, Some (errorString ("unknown key: " +:+ pretty ch)))
         | Some key => (key, None)
         end.

(** ** Readers ([io.Reader], [bytes.Reader]) *)

(** [Read(p []byte) (n int, err error)]: from the reader and the
    contents of [p], the new contents of [p], [n], [err] and the reader
    afterwards. *)
Class Reader (R : Type) : Type :=
  Read : R -> list Z -> list Z * Z * option error * R.

Module bytes.

Record Reader : Type := mkReader {
  s : list Z;
  i : Z
}.

Definition NewReader (b : list Z) : Reader := {| s := b; i := 0 |}.

(** [copy(dst, src)]: the new [dst] and the number of bytes copied. *)
Definition copy (dst src : list Z) : list Z * Z :=
  let n := Nat.min (length dst) (length src) in
  (take n src ++ drop n dst, Z.of_nat n).

(** func (r *Reader) Read(b []byte) (n int, err error) *)
Definition Read (r : Reader) (b : list Z) : list Z * Z * option error * Reader :=
  if Z.of_nat (length (s r)) <=? i r then (b, 0, Some EOF, r)
  else
    let '(b', n) := copy b (drop (Z.to_nat (i r)) (s r)) in
    (b', n, None, {| s := s r; i := i r + n |}).

End bytes.

#[export] Instance bytes_Reader : Reader bytes.Reader := bytes.Read.

(** ** The CPU ([chip8.go]) *)

Definition FONT : list Z :=
  [ 0xF0; 0x90; 0x90; 0x90; 0xF0;
    0x20; 0x60; 0x20; 0x20; 0x70;
    0xF0; 0x10; 0xF0; 0x80; 0xF0;
    0xF0; 0x10; 0xF0; 0x10; 0xF0;
    0x90; 0x90; 0xF0; 0x10; 0x10;
    0xF0; 0x80; 0xF0; 0x10; 0xF0;
    0xF0; 0x80; 0xF0; 0x90; 0xF0;
    0xF0; 0x10; 0x20; 0x40; 0x40;
    0xF0; 0x90; 0xF0; 0x90; 0xF0;
    0xF0; 0x90; 0xF0; 0x10; 0xF0;
    0xF0; 0x90; 0xF0; 0x90; 0x90;
    0xE0; 0x90; 0xE0; 0x90; 0xE0;
    0xF0; 0x80; 0x80; 0x80; 0xF0;
    0xE0; 0x90; 0x90; 0x90; 0xE0;
    0xF0; 0x80; 0xF0; 0x80; 0xF0;
    0xF0; 0x80; 0xF0; 0x80; 0x80 ].

(** The struct [CPU]. The channels [Clock] and [stop] are the events
    [Run] receives (see [event]); [Stdout] is not a field of the struct:
    it records what the CPU's methods print. *)
Record CPU : Type := mkCPU {
  Memory : list Z;             (* [4096]byte *)
  V : list Z;                  (* [16]byte *)
  I : Z;                       (* uint16 *)
  ProgramCounter : Z;          (* uint16 *)
  Stack : list Z;              (* [16]uint16 *)
  StackPointer : Z;            (* byte *)
  Graphics_ : Graphics;        (* the embedded Graphics *)
  DelayTimer : Z;              (* byte *)
  SoundTimer : Z;              (* byte *)
  key : list Z;                (* [16]byte *)
  Keypad_ : option Keypad;     (* None is nil *)
  Stdout : list string
}.

Definition set_Memory (m : list Z) (c : CPU) : CPU :=
  mkCPU m (V c) (I c) (ProgramCounter c) (Stack c) (StackPointer c)
        (Graphics_ c) (DelayTimer c) (SoundTimer c) (key c) (Keypad_ c) (Stdout c).
Definition set_V (v : list Z) (c : CPU) : CPU :=
  mkCPU (Memory c) v (I c) (ProgramCounter c) (Stack c) (StackPointer c)
        (Graphics_ c) (DelayTimer c) (SoundTimer c) (key c) (Keypad_ c) (Stdout c).
Definition set_I (i : Z) (c : CPU) : CPU :=
  mkCPU (Memory c) (V c) i (ProgramCounter c) (Stack c) (StackPointer c)
        (Graphics_ c) (DelayTimer c) (SoundTimer c) (key c) (Keypad_ c) (Stdout c).
Definition set_ProgramCounter (pc : Z) (c : CPU) : CPU :=
  mkCPU (Memory c) (V c) (I c) pc (Stack c) (StackPointer c)
        (Graphics_ c) (DelayTimer c) (SoundTimer c) (key c) (Keypad_ c) (Stdout c).
Definition set_Stack (st : list Z) (c : CPU) : CPU :=
  mkCPU (Memory c) (V c) (I c) (ProgramCounter c) st (StackPointer c)
        (Graphics_ c) (DelayTimer c) (SoundTimer c) (key c) (Keypad_ c) (Stdout c).
Definition set_StackPointer (sp : Z) (c : CPU) : CPU :=
  mkCPU (Memory c) (V c) (I c) (ProgramCounter c) (Stack c) sp
        (Graphics_ c) (DelayTimer c) (SoundTimer c) (key c) (Keypad_ c) (Stdout c).
Definition set_Graphics (g : Graphics) (c : CPU) : CPU :=
  mkCPU (Memory c) (V c) (I c) (ProgramCounter c) (Stack c) (StackPointer c)
        g (DelayTimer c) (SoundTimer c) (key c) (Keypad_ c) (Stdout c).
Definition set_DelayTimer (t : Z) (c : CPU) : CPU :=
  mkCPU (Memory c) (V c) (I c) (ProgramCounter c) (Stack c) (StackPointer c)
        (Graphics_ c) t (SoundTimer c) (key c) (Keypad_ c) (Stdout c).
Definition set_SoundTimer (t : Z) (c : CPU) : CPU :=
  mkCPU (Memory c) (V c) (I c) (ProgramCounter c) (Stack c) (StackPointer c)
        (Graphics_ c) (DelayTimer c) t (key c) (Keypad_ c) (Stdout c).
Definition set_Keypad (k : option Keypad) (c : CPU) : CPU :=
  mkCPU (Memory c) (V c) (I c) (ProgramCounter c) (Stack c) (StackPointer c)
        (Graphics_ c) (DelayTimer c) (SoundTimer c) (key c) k (Stdout c).
Definition set_Stdout (out : list string) (c : CPU) : CPU :=
  mkCPU (Memory c) (V c) (I c) (ProgramCounter c) (Stack c) (StackPointer c)
        (Graphics_ c) (DelayTimer c) (SoundTimer c) (key c) (Keypad_ c) out.

(** A method of the embedded [Graphics], called on the CPU. *)
Definition onGraphics {A} (m : M Graphics A) : M CPU A :=
  fun c => match m (Graphics_ c) with
           | Returns a g => Returns a (set_Graphics g c)
           | Panics p => Panics p
           end.

Definition zeros (n : nat) : list Z := replicate n 0.

(** func NewCPU(options *Options) *CPU

    The options only set the period of [Clock]. *)
Definition NewCPU : CPU :=
  let cpu :=
    {| Memory := zeros 4096;
       V := zeros 16;
       I := 0;
       ProgramCounter := 0x200;
       Stack := zeros 16;
       StackPointer := 0;
       Graphics_ := {| Pixels := zeros 2048; Display_ := None |};
       DelayTimer := 0;
       SoundTimer := 0;
       key := zeros 16;
       Keypad_ := None;
       Stdout := [] |} in
  let cpu := set_ProgramCounter 0x200 cpu in
  foldl (fun cpu i =>
           set_Memory (<[Z.to_nat i := FONT !!! Z.to_nat i]> (Memory cpu)) cpu)
        cpu (seqZ 0 80).

(** func (c *CPU) load(offset int, r io.Reader) (int, error)

    [c.Memory[offset:]] panics unless [0 <= offset <= 4096]; the reader
    then writes into that slice, which shares the array with [Memory]. *)
Definition load {R} `{Reader R} (offset : Z) (r : R) : M CPU (Z * option error * R) :=
  mem <- gets Memory ;;
  if (0 <=? offset) && (offset <=? 4096) then
    let '(buf, n, err, r') := Read r (drop (Z.to_nat offset) mem) in
    modify (set_Memory (take (Z.to_nat offset) mem ++ buf)) ;;;
    ret (n, err, r')
  else throw (SliceOutOfRange offset 4096 4096).

(** func (c *CPU) Load(r io.Reader) (int, error) *)
Definition Load {R} `{Reader R} (r : R) : M CPU (Z * option error * R) :=
  load 0x200 r.

(** func (c *CPU) LoadBytes(b []byte) (int, error) *)
Definition LoadBytes (b : list Z) : M CPU (Z * option error * bytes.Reader) :=
  Load (bytes.NewReader b).

(** Reads and writes of the CPU's arrays and registers. *)
Definition getMemory (a : Z) : M CPU Z := at_ 4096 Memory a.
Definition setMemory (a v : Z) : M CPU unit := store_at 4096 Memory set_Memory a v.
Definition getV (x : Z) : M CPU Z := at_ 16 V x.
Definition setV (x v : Z) : M CPU unit := store_at 16 V set_V x v.
Definition getStack (sp : Z) : M CPU Z := at_ 16 Stack sp.
Definition setStack (sp v : Z) : M CPU unit := store_at 16 Stack set_Stack sp v.
Definition setPC (pc : Z) : M CPU unit := modify (set_ProgramCounter pc).
Definition setI (i : Z) : M CPU unit := modify (set_I i).

(** [c.ProgramCounter += n] *)
Definition addPC (n : Z) : M CPU unit :=
  modify (fun c => set_ProgramCounter (uint16 (ProgramCounter c + n)) c).

(** [c.Memory[lo:hi]] *)
Definition sliceMemory (lo hi : Z) : M CPU (list Z) :=
  fun c => if (0 <=? lo) && (lo <=? hi) && (hi <=? 4096)
           then Returns (take (Z.to_nat (hi - lo)) (drop (Z.to_nat lo) (Memory c))) c
           else Panics (SliceOutOfRange lo hi 4096).

(** func (c *CPU) decodeOp() uint16 *)
Definition decodeOp : M CPU Z :=
  pc <- gets ProgramCounter ;;
  hi <- getMemory pc ;;
  lo <- getMemory (uint16 (pc + 1)) ;;
  ret (Z.lor (uint16 (Z.shiftl (uint16 hi) 8)) (uint16 lo)).

(** func (c *CPU) keypad() Keypad *)
Definition keypad : M CPU Keypad :=
  k <- gets Keypad_ ;;
  match k with
  | None => ret DefaultKeypad
  | Some k => ret k
  end.

(** func (c *CPU) getKey() (byte, error) *)
Definition getKey (w : World) : M CPU (Z * option error) :=
  k <- keypad ;;
  let '(b, err) := k w in
  match err with
  | Some e =>
      if is_ErrQuit e then ret (b, Some e)
      else ret (b, Some (errorString
                  ("chip8: unable to get key from keypad: " +:+ Error e)))
  | None => ret (b, None)
  end.

Definition flag (b : bool) : Z := if b then 1 else 0.

(** func (c *CPU) dispatch(opcode uint16) error

    A [switch] is the chain of its cases in order; a case that ends in
    [break] leaves the switch and reaches the final [return nil]. *)
Definition dispatch (w : World) (opcode : Z) : M CPU (option error) :=
  let class := Z.land opcode 0xF000 in
  if class =? 0x0000 then
    if opcode =? 0x00E0 then
      onGraphics Gfx.Clear ;;;
      addPC 2 ;;;
      ret None
    else if opcode =? 0x00EE then
      sp <- gets StackPointer ;;
      pc <- getStack sp ;;
      setPC pc ;;;
      modify (fun c => set_StackPointer (byte_ (StackPointer c - 1)) c) ;;;
      addPC 2 ;;;
      ret None
    else ret (Some (UnknownOpcode opcode))
  else if class =? 0x1000 then
    setPC (Z.land opcode 0x0FFF) ;;;
    ret None
  else if class =? 0x2000 then
    modify (fun c => set_StackPointer (byte_ (StackPointer c + 1)) c) ;;;
    sp <- gets StackPointer ;;
    pc <- gets ProgramCounter ;;
    setStack sp pc ;;;
    setPC (Z.land opcode 0x0FFF) ;;;
    ret None
  else if class =? 0x3000 then
    let reg := Z.shiftr (Z.land opcode 0x0F00) 8 in
    let nn := byte_ opcode in
    addPC 2 ;;;
    vx <- getV reg ;;
    (if vx =? nn then addPC 2 else ret tt) ;;;
    ret None
  else if class =? 0x4000 then
    let reg := Z.shiftr (Z.land opcode 0x0F00) 8 in
    let nn := byte_ opcode in
    addPC 2 ;;;
    vx <- getV reg ;;
    (if negb (vx =? nn) then addPC 2 else ret tt) ;;;
    ret None
  else if class =? 0x5000 then
    let x := Z.shiftr (Z.land opcode 0x0F00) 8 in
    let y := Z.shiftr (Z.land opcode 0x00F0) 8 in
    addPC 2 ;;;
    vx <- getV x ;;
    vy <- getV y ;;
    (if vx =? vy then addPC 2 else ret tt) ;;;
    ret None
  else if class =? 0x6000 then
    let x := Z.shiftr (Z.land opcode 0x0F00) 8 in
    let nn := byte_ opcode in
    addPC 2 ;;;
    setV x nn ;;;
    ret None
  else if class =? 0x7000 then
    let x := Z.shiftr (Z.land opcode 0x0F00) 8 in
    let kk := byte_ opcode in
    vx <- getV x ;;
    setV x (byte_ (vx + kk)) ;;;
    addPC 2 ;;;
    ret None
  else if class =? 0x8000 then
    let x := Z.shiftr (Z.land opcode 0x0F00) 8 in
    let y := Z.shiftr (Z.land opcode 0x00F0) 4 in
    let low := Z.land opcode 0x000F in
    if low =? 0x0000 then
      vy <- getV y ;;
      setV x vy ;;;
      addPC 2 ;;;
      ret None
    else if low =? 0x0001 then
      vy <- getV y ;;
      vx <- getV x ;;
      setV x (Z.lor vy vx) ;;;
      addPC 2 ;;;
      ret None
    else if low =? 0x0002 then
      vy <- getV y ;;
      vx <- getV x ;;
      setV x (Z.land vy vx) ;;;
      addPC 2 ;;;
      ret None
    else if low =? 0x0003 then
      vy <- getV y ;;
      vx <- getV x ;;
      setV x (Z.lxor vy vx) ;;;
      addPC 2 ;;;
      ret None
    else if low =? 0x0004 then
      vx <- getV x ;;
      vy <- getV y ;;
      let result := uint16 (uint16 vx + uint16 vy) in
      let cf := flag (0xFF <? result) in
      setV 0xF cf ;;;
      setV x (byte_ result) ;;;
      addPC 2 ;;;
      ret None
    else if low =? 0x0005 then
      vx <- getV x ;;
      vy <- getV y ;;
      let cf := flag (vy <? vx) in
      setV 0xF cf ;;;
      vx <- getV x ;;
      vy <- getV y ;;
      setV x (byte_ (vx - vy)) ;;;
      addPC 2 ;;;
      ret None
    else if low =? 0x0006 then
      vx <- getV x ;;
      let cf := flag (Z.land vx 0x01 =? 0x01) in
      setV 0xF cf ;;;
      vx <- getV x ;;
      setV x (vx / 2) ;;;
      addPC 2 ;;;
      ret None
    else if low =? 0x0007 then
      vy <- getV y ;;
      vx <- getV x ;;
      let cf := flag (vx <? vy) in
      setV 0xF cf ;;;
      vy <- getV y ;;
      vx <- getV x ;;
      setV x (byte_ (vy - vx)) ;;;
      addPC 2 ;;;
      ret None
    else if low =? 0x000E then
      vx <- getV x ;;
      let cf := flag (Z.land vx 0x80 =? 0x80) in
      setV 0xF cf ;;;
      vx <- getV x ;;
      setV x (byte_ (vx * 2)) ;;;
      addPC 2 ;;;
      ret None
    else ret None
  else if class =? 0x9000 then
    let x := Z.shiftr (Z.land opcode 0x0F00) 8 in
    let y := Z.shiftr (Z.land opcode 0x00F0) 4 in
    if Z.land opcode 0x000F =? 0x0000 then
      addPC 2 ;;;
      vx <- getV x ;;
      vy <- getV y ;;
      (if negb (vx =? vy) then addPC 2 else ret tt) ;;;
      ret None
    else ret (Some (UnknownOpcode opcode))
  else if class =? 0xA000 then
    setI (Z.land opcode 0x0FFF) ;;;
    addPC 2 ;;;
    ret None
  else if class =? 0xB000 then
    v0 <- getV 0 ;;
    setPC (uint16 (Z.land opcode 0x0FFF + uint16 v0)) ;;;
    ret None
  else if class =? 0xC000 then
    let x := Z.shiftr (Z.land opcode 0x0F00) 8 in
    let kk := byte_ opcode in
    setV x (byte_ (kk + byte_ (Intn255 w))) ;;;
    addPC 2 ;;;
    ret None
  else if class =? 0xD000 then
    x <- getV (Z.shiftr (Z.land opcode 0x0F00) 8) ;;
    y <- getV (Z.shiftr (Z.land opcode 0x00F0) 4) ;;
    let n := Z.land opcode 0x000F in
    i <- gets I ;;
    sprite <- sliceMemory i (uint16 (i + n)) ;;
    hit <- onGraphics (Gfx.WriteSprite sprite x y) ;;
    let cf := flag hit in
    setV 0xF cf ;;;
    addPC 2 ;;;
    onGraphics Gfx.Draw ;;;
    ret None
  else if class =? 0xE000 then
    let x := Z.shiftr (Z.land opcode 0x0F00) 8 in
    let low := Z.land opcode 0x00FF in
    if low =? 0x9E then
      addPC 2 ;;;
      r <- getKey w ;;
      match r with
      | (_, Some err) => ret (Some err)
      | (b, None) =>
          vx <- getV x ;;
          (if vx =? b then addPC 2 else ret tt) ;;;
          ret None
      end
    else if low =? 0xA1 then
      addPC 2 ;;;
      r <- getKey w ;;
      match r with
      | (_, Some err) => ret (Some err)
      | (b, None) =>
          vx <- getV x ;;
          (if negb (vx =? b) then addPC 2 else ret tt) ;;;
          ret None
      end
    else ret (Some (UnknownOpcode opcode))
  else if class =? 0xF000 then
    let x := Z.shiftr (Z.land opcode 0x0F00) 8 in
    let low := Z.land opcode 0x00FF in
    if low =? 0x07 then
      dt <- gets DelayTimer ;;
      setV x dt ;;;
      addPC 2 ;;;
      ret None
    else if low =? 0x0A then
      r <- getKey w ;;
      match r with
      | (_, Some err) => ret (Some err)
      | (b, None) =>
          setV x b ;;;
          addPC 2 ;;;
          ret None
      end
    else if low =? 0x15 then
      vx <- getV x ;;
      modify (set_DelayTimer vx) ;;;
      addPC 2 ;;;
      ret None
    else if low =? 0x18 then
      vx <- getV x ;;
      modify (set_SoundTimer vx) ;;;
      addPC 2 ;;;
      ret None
    else if low =? 0x1E then
      i <- gets I ;;
      vx <- getV x ;;
      setI (uint16 (i + uint16 vx)) ;;;
      addPC 2 ;;;
      ret None
    else if low =? 0x29 then
      vx <- getV x ;;
      setI (uint16 (uint16 vx * uint16 0x05)) ;;;
      addPC 2 ;;;
      ret None
    else if low =? 0x33 then
      i <- gets I ;;
      vx <- getV x ;;
      setMemory i (vx / 100) ;;;
      vx <- getV x ;;
      setMemory (uint16 (i + 1)) ((vx / 10) mod 10) ;;;
      vx <- getV x ;;
      setMemory (uint16 (i + 2)) ((vx mod 100) mod 10) ;;;
      addPC 2 ;;;
      ret None
    else if low =? 0x55 then
      for_each (seqZ 0 (x + 1)) (fun i _ =>
        idx <- gets I ;;
        vi <- getV i ;;
        setMemory (uint16 (idx + uint16 i)) vi) tt ;;;
      addPC 2 ;;;
      ret None
    else if low =? 0x65 then
      for_each (seqZ 0 (byte_ x + 1)) (fun i _ =>
        idx <- gets I ;;
        m <- getMemory (uint16 (idx + uint16 i)) ;;
        setV (uint16 i) m) tt ;;;
      addPC 2 ;;;
      ret None
    else ret (Some (UnknownOpcode opcode))
  else ret (Some (UnknownOpcode opcode)).

(** [fmt.Print] appends to standard output. *)
Definition fmt_Print (s : string) : M CPU unit :=
  modify (fun c => set_Stdout (Stdout c ++ [s]) c).

(** func (c *CPU) emulateCycle() (uint16, error) *)
Definition emulateCycle (w : World) : M CPU (Z * option error) :=
  opcode <- decodeOp ;;
  err <- dispatch w opcode ;;
  match err with
  | Some e => ret (opcode, Some e)
  | None =>
      dt <- gets DelayTimer ;;
      (if 0 <? dt then modify (set_DelayTimer (byte_ (dt - 1))) else ret tt) ;;;
      st <- gets SoundTimer ;;
      (if 0 <? st then
         (if st =? 1 then fmt_Print "7" else ret tt) ;;;
         modify (set_SoundTimer (byte_ (st - 1)))
       else ret tt) ;;;
      ret (opcode, None)
  end.

(** What the [select] of [Run] receives: the [stop] channel is closed,
    or the [Clock] ticks (with the world as it is during that tick). *)
Inductive event : Type :=
  | StopClosed
  | ClockTick (w : World).

(** [Run] has returned [err], or waits in [select] for the next event. *)
Inductive run_result : Type :=
  | Exited (err : option error)
  | Waiting.

(** func (c *CPU) Run() error, on the events its [select] receives. *)
Fixpoint Run (evs : list event) : M CPU run_result :=
  match evs with
  | [] => ret Waiting
  | StopClosed :: _ => ret (Exited None)
  | ClockTick w :: evs' =>
      r <- emulateCycle w ;;
      match r with
      | (_, Some err) =>
          if is_ErrQuit err then ret (Exited None) else ret (Exited (Some err))
      | (_, None) => Run evs'
      end
  end.

(** * Vocabulary of the specification *)

(** ** Opcode patterns *)

Definition class_of (opcode : Z) : Z := Z.land opcode 0xF000.

(** The low nibbles the 0x8 class documents. *)
Definition documented_8 (low : Z) : bool :=
  (low =? 0x0) || (low =? 0x1) || (low =? 0x2) || (low =? 0x3) || (low =? 0x4)
  || (low =? 0x5) || (low =? 0x6) || (low =? 0x7) || (low =? 0xE).

(** The low bytes the 0xF class documents. *)
Definition documented_F (low : Z) : bool :=
  (low =? 0x07) || (low =? 0x0A) || (low =? 0x15) || (low =? 0x18)
  || (low =? 0x1E) || (low =? 0x29) || (low =? 0x33) || (low =? 0x55)
  || (low =? 0x65).

(** The opcodes of the specification's table: the class alone where the
    class has one instruction, the class and the bottom nibble or byte
    where it has several. *)
Definition documented (opcode : Z) : bool :=
  let class := class_of opcode in
  if class =? 0x0000 then (opcode =? 0x00E0) || (opcode =? 0x00EE)
  else if class =? 0x8000 then documented_8 (Z.land opcode 0x000F)
  else if class =? 0x9000 then Z.land opcode 0x000F =? 0x0
  else if class =? 0xE000 then
    (Z.land opcode 0x00FF =? 0x9E) || (Z.land opcode 0x00FF =? 0xA1)
  else if class =? 0xF000 then documented_F (Z.land opcode 0x00FF)
  else (0x1000 <=? class) && (class <=? 0xD000).

(** The opcodes that ask the keypad for a key: EX9E, EXA1 and FX0A. *)
Definition reads_key (opcode : Z) : bool :=
  (class_of opcode =? 0xE000)
    && ((Z.land opcode 0x00FF =? 0x9E) || (Z.land opcode 0x00FF =? 0xA1))
  || (class_of opcode =? 0xF000) && (Z.land opcode 0x00FF =? 0x0A).

Definition is_call (opcode : Z) : Prop := class_of opcode = 0x2000.

(** ** The pixel grid *)

(** The index of the pixel in row [y] and column [x]. *)
Definition cell (y x : Z) : nat := Z.to_nat (y * GraphicsWidth + x).

Definition cells (ys xs : list Z) : list nat :=
  ys ≫= (fun y => cell y <$> xs).

(** [g] is [g0] with the pixels of [visited] set to 0 and no other
    pixel changed. *)
Definition cleared_of (visited : list nat) (g0 g : Graphics) : Prop :=
  length (Pixels g) = length (Pixels g0) /\
  forall a : nat,
    (a ∈ visited -> Pixels g !! a = Some 0) /\
    (a ∉ visited -> Pixels g !! a = Pixels g0 !! a).

(** The index of the first pixel [WriteSprite] touches for a sprite at
    [(x, y)] with [y >= GraphicsHeight]: one subtraction per coordinate. *)
Definition first_pixel (x y : Z) : Z :=
  (if GraphicsWidth <=? x then x - GraphicsWidth else x)
  + (y - GraphicsHeight) * GraphicsWidth.

(** ** Calls and returns *)

(** The state a call to [target] leaves behind. *)
Definition called (target : Z) (c : CPU) : CPU :=
  let sp := byte_ (StackPointer c + 1) in
  set_ProgramCounter target
    (set_Stack (<[Z.to_nat sp := ProgramCounter c]> (Stack c))
       (set_StackPointer sp c)).

(** The state a return leaves behind. *)
Definition returned (c : CPU) : CPU :=
  set_ProgramCounter (uint16 (Stack c !!! Z.to_nat (StackPointer c) + 2))
    (set_StackPointer (byte_ (StackPointer c - 1)) c).

(** Nested calls: the opcodes of [ops] dispatched one after the other. *)
Fixpoint calls (w : World) (ops : list Z) : M CPU unit :=
  match ops with
  | [] => ret tt
  | op :: ops' => dispatch w op ;;; calls w ops'
  end.

(** The return addresses the calls of [ops] push, the first of them made
    at program counter [pc]. *)
Fixpoint pushed (pc : Z) (ops : list Z) : list Z :=
  match ops with
  | [] => []
  | op :: ops' => pc :: pushed (Z.land op 0x0FFF) ops'
  end.

(** ** Keypad errors *)

(** The keypad [getKey] asks. *)
Definition keypad_of (c : CPU) : Keypad :=
  match Keypad_ c with
  | None => DefaultKeypad
  | Some k => k
  end.

(** The error that wraps a keypad's error. *)
Definition KeypadFailure (e : error) : error :=
  errorString ("chip8: unable to get key from keypad: " +:+ Error e).

(** What [getKey] returns for the keypad's error [e]. *)
Definition surfaced (e : error) : error :=
  if is_ErrQuit e then e else KeypadFailure e.

(** A computation that never returns an error value. *)
Definition no_error {S} (m : M S (option error)) : Prop :=
  forall s e s', m s <> Returns (Some e) s'.

(** ** Machines and worlds used as examples *)

Definition idle : World := {| PollEvent := 0; Intn255 := 0 |}.
Definition draws_one : World := {| PollEvent := 0; Intn255 := 1 |}.
Definition escape_pressed : World := {| PollEvent := escapeKey; Intn255 := 0 |}.

(** All pixels lit. *)
Definition lit : Graphics := {| Pixels := replicate 2048 1; Display_ := None |}.

Definition dark : Graphics := {| Pixels := zeros 2048; Display_ := None |}.

(** V1 = V2 = 7 and V0 = 0. *)
Definition v1_equals_v2 : CPU :=
  set_V (<[2%nat := 7]> (<[1%nat := 7]> (V NewCPU))) NewCPU.

(** Both timers running, and no program loaded. *)
Definition ticking : CPU := set_SoundTimer 1 (set_DelayTimer 9 NewCPU).

(** A terminal keypad, and the program [F00A] (wait for a key). *)
Definition awaiting_key : CPU :=
  set_Keypad (Some TermboxKeypad)
    (set_Memory (<[0x201%nat := 0x0A]> (<[0x200%nat := 0xF0]> (Memory NewCPU))) NewCPU).

(** Fifteen calls to address 0x300. *)
Definition fifteen_calls : list Z := replicate 15 0x2300.

(** ** Registers and memory blocks *)

(** Every entry is a value of Go's [byte]. *)
Definition bytes_in (l : list Z) : Prop := Forall (fun v => 0 <= v < 256) l.

(** [m] is [mem] with the first [k] entries of [regs] written from
    address [i] on. *)
Definition stored (i : Z) (regs mem : list Z) (k : nat) (m : list Z) : Prop :=
  length m = length mem /\
  forall a : nat,
    m !! a = if (i <=? Z.of_nat a) && (Z.of_nat a <? i + Z.of_nat k)
             then regs !! (a - Z.to_nat i)%nat
             else mem !! a.

(** [v] is [regs] with its first [k] entries read from [mem] at address
    [i] on. *)
Definition filled (i : Z) (mem regs : list Z) (k : nat) (v : list Z) : Prop :=
  length v = length regs /\
  forall a : nat,
    v !! a = if (a <? k)%nat then mem !! (Z.to_nat i + a)%nat else regs !! a.

(** ** Sprites *)

(** [v], or [v - dim] when [v >= dim]: the wrap of [WriteSprite]. *)
Definition wrap_once (dim v : Z) : Z := if dim <=? v then v - dim else v.

(** The value [WriteSprite] XORs into the pixel for column [xl] of the
    sprite row [r]. *)
Definition sprite_bit (r xl : Z) : Z :=
  if Z.land r (byte_ (Z.shiftr 0x80 (byte_ xl))) =? byte_ (Z.shiftr 0x80 (byte_ xl))
  then 1 else 0.

(** The pixels one sprite row touches, in order, each with its bit. *)
Definition row_cells (r x yp : Z) (xls : list Z) : list (nat * Z) :=
  (fun xl => (cell yp (wrap_once GraphicsWidth (x + xl)), sprite_bit r xl)) <$> xls.

(** The pixels the rows [yls] of a sprite at [(x, y)] touch, in order. *)
Definition sprite_cells (sprite : list Z) (x y : Z) (yls : list Z) : list (nat * Z) :=
  yls ≫= (fun yl => row_cells (sprite !!! Z.to_nat yl) x
                      (wrap_once GraphicsHeight (y + yl)) (seqZ 0 8)).

(** One [Set]: the pixel is XORed with the bit, and a pixel that was 1
    is a collision. *)
Definition xor_pixel (st : list Z * bool) (u : nat * Z) : list Z * bool :=
  (<[u.1 := Z.lxor (st.1 !!! u.1) u.2]> st.1,
   if st.1 !!! u.1 =? 1 then true else st.2).

Definition xor_at (px : list Z) (u : nat * Z) : list Z :=
  <[u.1 := Z.lxor (px !!! u.1) u.2]> px.

(** The cells all lie inside an array of [n] pixels. *)
Definition cells_within (n : nat) (us : list (nat * Z)) : Prop :=
  Forall (fun u => (u.1 < n)%nat) us.

(** ** More machines used as examples *)

(** V0 = 200, V1 = 100 and I = 0x300. *)
Definition add_example : CPU :=
  set_I 0x300 (set_V (<[1%nat := 100]> (<[0%nat := 200]> (V NewCPU))) NewCPU).

(** V0 = V1 = 7. *)
Definition equal_operands : CPU :=
  set_V (<[1%nat := 7]> (<[0%nat := 7]> (V NewCPU))) NewCPU.

(** V0 = 0x81. *)
Definition shift_example : CPU := set_V (<[0%nat := 0x81]> (V NewCPU)) NewCPU.

(** No keypad, and the program [F00A] (wait for a key). *)
Definition keyless : CPU :=
  set_Memory (<[0x201%nat := 0x0A]> (<[0x200%nat := 0xF0]> (Memory NewCPU))) NewCPU.

(** Both timers running, and the program [1200] (jump to itself). *)
Definition spinning : CPU :=
  set_SoundTimer 1 (set_DelayTimer 9
    (set_Memory (<[0x201%nat := 0x00]> (<[0x200%nat := 0x12]> (Memory NewCPU))) NewCPU)).

(** The program counter on the last byte of memory. *)
Definition at_the_edge : CPU := set_ProgramCounter 4095 NewCPU.

(** A two-row sprite. *)
Definition glyph : list Z := [0xF0; 0x90].

(** * Properties *)

(** ** Tactics *)

(** Unfolds the monad and the accessors along straight-line code. *)
Ltac run_go :=
  cbv beta iota zeta delta
    [bind ret gets modify throw at_ store_at onGraphics
     getMemory setMemory getV setV getStack setStack setPC setI addPC
     sliceMemory flag fmt_Print keypad];
  cbn [Memory V I ProgramCounter Stack StackPointer Graphics_ DelayTimer
       SoundTimer key Keypad_ Stdout
       set_Memory set_V set_I set_ProgramCounter set_Stack set_StackPointer
       set_Graphics set_DelayTimer set_SoundTimer set_Keypad set_Stdout
       Pixels Display_ set_Pixels].

(** Comparisons that return [bool], turned into propositions for [lia]. *)
Ltac blia :=
  try symmetry;
  rewrite ?andb_true_iff, ?andb_false_iff, ?Z.ltb_lt, ?Z.leb_le, ?Z.ltb_ge,
    ?Z.leb_gt, ?Z.eqb_eq, ?Z.eqb_neq;
  lia.

Ltac split_if H :=
  match type of H with
  | context [if ?b then _ else _] => destruct b eqn:?
  end.

Ltac grid := unfold PixelCount, GraphicsWidth, GraphicsHeight in *.

(** ** The model on the package's own tests ([chip8_test.go]) *)

Example NewCPU_starts_at_0x200 :
  ProgramCounter NewCPU = 0x200 /\ Memory NewCPU !! 3%nat = Some 0x90.
Proof. split; reflexivity. Qed.

Example LoadBytes_two_bytes :
  exists r c,
    LoadBytes [0x01; 0x02] NewCPU = Returns (2, None, r) c /\
    Memory c !! 0x200%nat = Some 0x01 /\ Memory c !! 0x201%nat = Some 0x02.
Proof. do 2 eexists. split; [vm_compute; reflexivity|]. split; reflexivity. Qed.

Example decodeOp_C0FE :
  exists c,
    decodeOp (set_Memory (<[0x201%nat := 0xFE]> (<[0x200%nat := 0xC0]> (Memory NewCPU)))
                NewCPU)
    = Returns 0xC0FE c.
Proof. eexists. vm_compute. reflexivity. Qed.

(** ** Integers and opcode fields *)

Lemma byte_range z : 0 <= byte_ z < 256.
Proof. apply Z.mod_pos_bound. lia. Qed.

Lemma uint16_small z : 0 <= z < 65536 -> uint16 z = z.
Proof. apply Z.mod_small. Qed.

Lemma nibble_x opcode : 0 <= Z.shiftr (Z.land opcode 0x0F00) 8 < 16.
Proof.
  rewrite Z.shiftr_land. change (Z.shiftr 0x0F00 8) with (Z.ones 4).
  rewrite Z.land_ones by lia. apply Z.mod_pos_bound. lia.
Qed.

(** The field [(opcode & 0x00F0) >> 8] of the 0x5 class is always 0. *)
Lemma nibble_y_shifted_by_8 opcode : Z.shiftr (Z.land opcode 0x00F0) 8 = 0.
Proof.
  rewrite Z.shiftr_land. change (Z.shiftr 0x00F0 8) with 0. apply Z.land_0_r.
Qed.

(** ** Loops and arrays *)

Lemma for_each_panics_first {S A} (body : Z -> A -> M S A) i xs acc s p :
  body i acc s = Panics p -> for_each (i :: xs) body acc s = Panics p.
Proof. intros H. cbn [for_each]. unfold bind. rewrite H. reflexivity. Qed.

(** An invariant over the part of the range already visited. *)
Lemma for_each_inv {S A} (Inv : list Z -> A -> S -> Prop)
    (body : Z -> A -> M S A) xs :
  forall acc s,
  Inv [] acc s ->
  (forall pre i post acc s, xs = pre ++ i :: post -> Inv pre acc s ->
     exists acc' s', body i acc s = Returns acc' s' /\ Inv (pre ++ [i]) acc' s') ->
  exists acc' s', for_each xs body acc s = Returns acc' s' /\ Inv xs acc' s'.
Proof.
  revert Inv. induction xs as [|i xs IH]; intros Inv acc s H0 Hstep.
  - exists acc, s. split; [reflexivity | assumption].
  - destruct (Hstep [] i xs acc s eq_refl H0) as (acc1 & s1 & Hb & H1).
    destruct (IH (fun pre => Inv (i :: pre)) acc1 s1 H1) as (acc2 & s2 & Hf & H2).
    + intros pre j post a t -> Hpre.
      apply (Hstep (i :: pre) j post a t eq_refl Hpre).
    + exists acc2, s2. split; [|assumption].
      cbn [for_each]. unfold bind. rewrite Hb. exact Hf.
Qed.

Lemma elem_of_middle (xs pre post : list Z) i lo len :
  xs = pre ++ i :: post -> xs = seqZ lo len -> lo <= i < lo + len.
Proof.
  intros Hsplit Hxs.
  assert (Hin : i ∈ seqZ lo len).
  { rewrite <- Hxs, Hsplit, elem_of_app, elem_of_cons. right. left. reflexivity. }
  apply elem_of_seqZ in Hin. exact Hin.
Qed.

Lemma at_out_of_range {S} n (arr : S -> list Z) i s :
  n <= i -> at_ n arr i s = Panics (IndexOutOfRange i n).
Proof.
  intros Hi. unfold at_. replace ((0 <=? i) && (i <? n)) with false by blia.
  reflexivity.
Qed.

(** ** The graphics buffer *)

Lemma cleared_of_store visited g0 g a :
  cleared_of visited g0 g -> (a < length (Pixels g0))%nat ->
  cleared_of (visited ++ [a]) g0 (set_Pixels (<[a := 0]> (Pixels g)) g).
Proof.
  intros [Hlen Hv] Ha. split; cbn [Pixels set_Pixels].
  - rewrite length_insert. exact Hlen.
  - intros b. rewrite elem_of_app, list_elem_of_singleton.
    destruct (decide (b = a)) as [->|Hne].
    + split; [intros _ | intros Hn; exfalso; apply Hn; right; reflexivity].
      apply list_lookup_insert_eq. lia.
    + rewrite list_lookup_insert_ne by congruence.
      split; intros Hb.
      * apply Hv. destruct Hb as [Hb|Hb]; [exact Hb | contradiction].
      * apply Hv. intros Hb'. apply Hb. left. exact Hb'.
Qed.

(** One row of [EachPixel], with the callback of [Clear]. *)
Lemma Clear_row g0 visited y g :
  0 <= y < GraphicsHeight - 1 ->
  length (Pixels g0) = 2048%nat ->
  cleared_of visited g0 g ->
  exists g',
    for_each (seqZ 0 (GraphicsWidth - 1)) (fun x _ =>
      store_at PixelCount Pixels set_Pixels (y * GraphicsWidth + x) 0) tt g
    = Returns tt g' /\
    cleared_of (visited ++ (cell y <$> seqZ 0 (GraphicsWidth - 1))) g0 g'.
Proof.
  intros Hy Hlen Hc.
  destruct (for_each_inv
    (fun pre (_ : unit) g' => cleared_of (visited ++ (cell y <$> pre)) g0 g')
    (fun x _ => store_at PixelCount Pixels set_Pixels (y * GraphicsWidth + x) 0)
    (seqZ 0 (GraphicsWidth - 1)) tt g) as ([] & g' & Hrun & Hinv).
  - rewrite fmap_nil, app_nil_r. exact Hc.
  - intros pre x post [] s Hsplit Hpre.
    pose proof (elem_of_middle _ _ _ _ _ _ Hsplit eq_refl) as Hx.
    exists tt. eexists. split.
    + unfold store_at. grid.
      replace ((0 <=? y * 64 + x) && (y * 64 + x <? 64 * 32)) with true by blia.
      reflexivity.
    + rewrite fmap_app, app_assoc. cbn [fmap list_fmap].
      apply cleared_of_store; [exact Hpre|].
      rewrite Hlen. grid. lia.
  - exists g'. split; assumption.
Qed.

Lemma Clear_cleared g :
  length (Pixels g) = 2048%nat ->
  exists g',
    Gfx.Clear g = Returns tt g' /\
    cleared_of (cells (seqZ 0 (GraphicsHeight - 1)) (seqZ 0 (GraphicsWidth - 1))) g g'.
Proof.
  intros Hlen. unfold Gfx.Clear, Gfx.EachPixel.
  destruct (for_each_inv
    (fun pre (_ : unit) g' => cleared_of (cells pre (seqZ 0 (GraphicsWidth - 1))) g g')
    (fun y _ => for_each (seqZ 0 (GraphicsWidth - 1)) (fun x _ =>
       store_at PixelCount Pixels set_Pixels (y * GraphicsWidth + x) 0) tt)
    (seqZ 0 (GraphicsHeight - 1)) tt g) as ([] & g' & Hrun & Hinv).
  - split; [reflexivity|]. intros a. split; [|reflexivity].
    unfold cells. cbn. intros Hin. apply elem_of_nil in Hin. contradiction.
  - intros pre y post [] s Hsplit Hpre.
    pose proof (elem_of_middle _ _ _ _ _ _ Hsplit eq_refl) as Hy.
    destruct (Clear_row g _ y s Hy Hlen Hpre) as (g1 & Hrow & Hc1).
    exists tt, g1. split; [exact Hrow|].
    unfold cells in *. rewrite bind_app. cbn [mbind list_bind]. rewrite app_nil_r.
    exact Hc1.
  - exists g'. split; assumption.
Qed.

Lemma elem_of_cells a ys xs :
  a ∈ cells ys xs <-> exists y x, y ∈ ys /\ x ∈ xs /\ a = cell y x.
Proof.
  unfold cells. rewrite list_elem_of_bind. split.
  - intros (y & Ha & Hy). apply list_elem_of_fmap in Ha as (x & -> & Hx). eauto.
  - intros (y & x & Hy & Hx & ->). exists y. split; [|exact Hy].
    apply list_elem_of_fmap. eauto.
Qed.

(** C2 (the code differs): [Clear] returns, and of the 64*32 cells it
    zeroes those with [x < 63] and [y < 31] only: every cell of the last
    column ([x = 63]) and of the last row ([y = 31]) keeps the value it
    had, because [EachPixel] stops one short in both directions. *)
Theorem Clear_skips_last_row_and_column g :
  length (Pixels g) = 2048%nat ->
  exists g',
    Gfx.Clear g = Returns tt g' /\
    forall x y, 0 <= x < GraphicsWidth -> 0 <= y < GraphicsHeight ->
      Pixels g' !! cell y x =
      if (x <? GraphicsWidth - 1) && (y <? GraphicsHeight - 1)
      then Some 0
      else Pixels g !! cell y x.
Proof.
  intros Hlen. destruct (Clear_cleared g Hlen) as (g' & Hrun & _ & Hc).
  exists g'. split; [exact Hrun|]. intros x y Hx Hy.
  destruct (Hc (cell y x)) as [Hin Hout].
  destruct ((x <? GraphicsWidth - 1) && (y <? GraphicsHeight - 1)) eqn:Hb.
  - apply Hin, elem_of_cells. exists y, x. rewrite !elem_of_seqZ.
    apply andb_true_iff in Hb. lia.
  - apply Hout. rewrite elem_of_cells. intros (y' & x' & Hy' & Hx' & Heq).
    rewrite elem_of_seqZ in Hy', Hx'. unfold cell in Heq. grid.
    apply andb_false_iff in Hb. lia.
Qed.

(** On a fully lit screen, [Clear] leaves pixel (63, 0) and pixel
    (0, 31) lit. *)
Lemma Clear_skips_last_row_and_column_witness :
  exists g',
    Gfx.Clear lit = Returns tt g' /\
    Pixels g' !! cell 0 0 = Some 0 /\
    Pixels g' !! cell 0 63 = Some 1 /\
    Pixels g' !! cell 31 0 = Some 1.
Proof.
  destruct (Clear_skips_last_row_and_column lit eq_refl) as (g' & Hrun & Hpx).
  exists g'. split; [exact Hrun|].
  split; [|split].
  - apply (Hpx 0 0); grid; lia.
  - apply (Hpx 63 0); grid; lia.
  - apply (Hpx 0 31); grid; lia.
Defined.

Lemma Set_out_of_range x y on g :
  0 <= x -> 0 <= y -> x + y * GraphicsWidth < 65536 ->
  PixelCount <= x + y * GraphicsWidth ->
  Gfx.Set_ x y on g = Panics (IndexOutOfRange (x + y * GraphicsWidth) PixelCount).
Proof.
  intros Hx Hy Hlt Hge. unfold Gfx.Set_.
  rewrite (uint16_small (y * GraphicsWidth)) by (grid; lia).
  rewrite (uint16_small (x + y * GraphicsWidth)) by (grid; lia).
  unfold bind at 1. rewrite at_out_of_range by exact Hge. reflexivity.
Qed.

(** C6 (the code differs): for a sprite of at least one row drawn at a
    row coordinate [y >= 64] (and any byte [x]), the single subtraction
    leaves [y - 32 >= 32]: the first pixel [WriteSprite] touches has an
    index of at least 2048, and [Set] panics on it. *)
Theorem WriteSprite_panics_below_the_grid g r sprite x y :
  0 <= x < 256 -> 2 * GraphicsHeight <= y < 256 ->
  Gfx.WriteSprite (r :: sprite) x y g
  = Panics (IndexOutOfRange (first_pixel x y) PixelCount)
  /\ PixelCount <= first_pixel x y.
Proof.
  intros Hx Hy.
  assert (Hge : PixelCount <= first_pixel x y).
  { unfold first_pixel. grid. destruct (64 <=? x) eqn:E; lia. }
  split; [|exact Hge].
  unfold Gfx.WriteSprite. cbn [length].
  rewrite seqZ_cons by lia. apply for_each_panics_first.
  rewrite (seqZ_cons 0 8) by lia. apply for_each_panics_first.
  unfold first_pixel in *. grid.
  assert (Hxp : uint16 (uint16 x + uint16 0) = x).
  { rewrite (uint16_small 0), Z.add_0_r, !(uint16_small x) by lia. reflexivity. }
  assert (Hyp : uint16 (uint16 y + uint16 0) = y).
  { rewrite (uint16_small 0), Z.add_0_r, !(uint16_small y) by lia. reflexivity. }
  rewrite Hxp, Hyp. replace (32 <=? y) with true by blia.
  rewrite (uint16_small (y - 32)) by lia. unfold bind.
  destruct (64 <=? x) eqn:E.
  - rewrite (uint16_small (x - 64)) by lia.
    rewrite Set_out_of_range; grid; try lia. reflexivity.
  - rewrite Set_out_of_range; grid; try lia. reflexivity.
Qed.

(** A one-row sprite at (0, 64) on a dark screen: index 2048. *)
Lemma WriteSprite_panics_below_the_grid_witness :
  Gfx.WriteSprite [0] 0 64 dark = Panics (IndexOutOfRange 2048 2048)
  /\ 2048 <= 2048.
Proof.
  apply (WriteSprite_panics_below_the_grid dark 0 [] 0 64); grid; lia.
Defined.

(** The same panic, reached from the draw opcode D011 with V1 = 64. *)
Lemma draw_panics_with_row_64 :
  dispatch idle 0xD011 (set_V (<[1%nat := 64]> (V NewCPU)) NewCPU)
  = Panics (IndexOutOfRange 2048 2048).
Proof. vm_compute. reflexivity. Qed.

(** ** Dispatch: unknown opcodes *)

(** Outside the 0x8 class, an opcode of no documented pattern is
    refused, with the opcode in the error and the machine untouched. *)
Lemma dispatch_undocumented_elsewhere w opcode c :
  documented opcode = false ->
  class_of opcode <> 0x8000 ->
  dispatch w opcode c = Returns (Some (UnknownOpcode opcode)) c.
Proof.
  unfold documented, documented_F, class_of. intros Hdoc Hclass.
  cbv beta zeta delta [dispatch].
  destruct (Z.land opcode 0xF000 =? 0x0000) eqn:E0.
  { apply orb_false_elim in Hdoc as [-> ->]. reflexivity. }
  destruct (Z.land opcode 0xF000 =? 0x8000) eqn:E8.
  { apply Z.eqb_eq in E8. contradiction. }
  destruct (Z.land opcode 0xF000 =? 0x9000) eqn:E9.
  { apply Z.eqb_eq in E9. rewrite E9, Hdoc. reflexivity. }
  destruct (Z.land opcode 0xF000 =? 0xE000) eqn:EE.
  { apply Z.eqb_eq in EE. rewrite EE. apply orb_false_elim in Hdoc as [-> ->].
    reflexivity. }
  destruct (Z.land opcode 0xF000 =? 0xF000) eqn:EF.
  { apply Z.eqb_eq in EF. rewrite EF.
    repeat (apply orb_false_elim in Hdoc; destruct Hdoc as [Hdoc ?]).
    repeat match goal with H : (_ =? _) = false |- _ => rewrite H; clear H end.
    reflexivity. }
  apply andb_false_iff in Hdoc.
  repeat match goal with
         | |- context [Z.land opcode 0xF000 =? ?k] =>
             destruct (Z.land opcode 0xF000 =? k) eqn:?
         end;
    try reflexivity;
    exfalso;
    match goal with H : (_ =? _) = true |- _ => apply Z.eqb_eq in H; rewrite H in Hdoc end;
    destruct Hdoc as [Hdoc|Hdoc]; discriminate Hdoc.
Qed.

(** C1 (the code differs): in the 0x8 class the inner switch has no
    default case. An opcode 8XYN whose bottom nibble N is none of
    0,1,2,3,4,5,6,7,E matches no documented pattern, and [dispatch]
    returns nil for it and leaves the machine as it was (not even the
    program counter moves); no [UnknownOpcode] is returned. *)
Theorem dispatch_8_undocumented_succeeds w opcode c :
  class_of opcode = 0x8000 ->
  documented opcode = false ->
  dispatch w opcode c = Returns None c.
Proof.
  unfold documented, class_of. intros Hc Hlow. rewrite Hc in Hlow.
  cbn [Z.eqb Pos.eqb] in Hlow.
  unfold dispatch. rewrite Hc. cbn [Z.eqb Pos.eqb].
  unfold documented_8 in Hlow.
  repeat (apply orb_false_elim in Hlow; destruct Hlow as [Hlow ?]).
  repeat match goal with H : (_ =? _) = false |- _ => rewrite H; clear H end.
  reflexivity.
Qed.

(** Opcode 0x8008 on a new machine. *)
Lemma dispatch_8_undocumented_succeeds_witness :
  dispatch idle 0x8008 NewCPU = Returns None NewCPU.
Proof. apply dispatch_8_undocumented_succeeds; reflexivity. Defined.

(** ** Dispatch: skip if equal, register with register *)

(** C3 (the code differs): for every opcode 5XYN, [dispatch] compares
    V[X] with V[0], whatever Y is, because Y is extracted with a shift
    by 8 instead of 4: the program counter advances by 4 exactly when
    V[X] equals V[0], and by 2 otherwise. *)
Theorem dispatch_5XY0_compares_with_V0 w opcode c :
  class_of opcode = 0x5000 ->
  let x := Z.shiftr (Z.land opcode 0x0F00) 8 in
  dispatch w opcode c =
    Returns None
      (set_ProgramCounter
         (if V c !!! Z.to_nat x =? V c !!! 0%nat
          then uint16 (uint16 (ProgramCounter c + 2) + 2)
          else uint16 (ProgramCounter c + 2)) c).
Proof.
  intros Hc x. unfold class_of in Hc. unfold dispatch. rewrite Hc.
  cbn [Z.eqb Pos.eqb]. rewrite nibble_y_shifted_by_8. fold x.
  pose proof (nibble_x opcode) as Hx. fold x in Hx.
  run_go.
  replace ((0 <=? x) && (x <? 16)) with true by blia.
  cbn [Z.leb Z.ltb Z.compare andb Z.to_nat].
  destruct (_ =? _); reflexivity.
Qed.

(** Opcode 0x5120 with V1 = V2 = 7 and V0 = 0: the registers named by
    the opcode are equal, and the program counter advances by 2. *)
Lemma dispatch_5XY0_compares_with_V0_witness :
  V v1_equals_v2 !! 1%nat = V v1_equals_v2 !! 2%nat /\
  dispatch idle 0x5120 v1_equals_v2
  = Returns None (set_ProgramCounter (0x200 + 2) v1_equals_v2).
Proof.
  split; [reflexivity|].
  apply (dispatch_5XY0_compares_with_V0 idle 0x5120 v1_equals_v2). reflexivity.
Defined.

(** ** Dispatch: random number *)

(** C4 (the code differs): for every opcode CXNN, [dispatch] sets V[X]
    to the sum, modulo 256, of NN and the random number, not to their
    bitwise AND, and advances the program counter by 2. *)
Theorem dispatch_CXNN_adds w opcode c :
  class_of opcode = 0xC000 ->
  let x := Z.shiftr (Z.land opcode 0x0F00) 8 in
  let nn := byte_ opcode in
  dispatch w opcode c =
    Returns None
      (set_ProgramCounter (uint16 (ProgramCounter c + 2))
         (set_V (<[Z.to_nat x := byte_ (nn + byte_ (Intn255 w))]> (V c)) c)).
Proof.
  intros Hc x nn. unfold class_of in Hc. unfold dispatch. rewrite Hc.
  cbn [Z.eqb Pos.eqb].
  pose proof (nibble_x opcode) as Hx. fold x in Hx. fold x nn.
  run_go.
  replace ((0 <=? x) && (x <? 16)) with true by blia.
  reflexivity.
Qed.

(** Opcode 0xC000 (NN = 0) when the generator draws 1: V0 becomes 1,
    which has a bit that NN has not. *)
Lemma dispatch_CXNN_adds_witness :
  exists c',
    dispatch draws_one 0xC000 NewCPU = Returns None c' /\
    V c' !! 0%nat = Some 1 /\
    Z.land 1 (byte_ 0xC000) = 0 /\
    ProgramCounter c' = ProgramCounter NewCPU + 2.
Proof.
  eexists. split; [apply dispatch_CXNN_adds; reflexivity|].
  split; [reflexivity|]. split; reflexivity.
Defined.

(** ** Loading a program *)

(** A non-empty source: [Read] copies as many bytes as the source and
    the rest of memory both have, and reports no error. *)
Lemma load_copies_the_minimum c b offset :
  length (Memory c) = 4096%nat ->
  0 <= offset <= 4096 ->
  0 < Z.of_nat (length b) ->
  let n := Z.min (Z.of_nat (length b)) (4096 - offset) in
  load offset (bytes.NewReader b) c
  = Returns (n, None, {| bytes.s := b; bytes.i := n |})
      (set_Memory (take (Z.to_nat offset) (Memory c) ++ take (Z.to_nat n) b
                   ++ drop (Z.to_nat (offset + n)) (Memory c)) c).
Proof.
  intros Hlen Hoff HL n. unfold load. run_go.
  replace ((0 <=? offset) && (offset <=? 4096)) with true by blia.
  unfold Read, bytes_Reader, bytes.Read, bytes.NewReader. cbn [bytes.s bytes.i].
  replace (Z.of_nat (length b) <=? 0) with false by blia.
  change (Z.to_nat 0) with 0%nat. rewrite drop_0. unfold bytes.copy.
  rewrite length_drop, Hlen.
  replace (Z.of_nat (Init.Nat.min (4096 - Z.to_nat offset) (length b))) with n
    by (unfold n; lia).
  replace (Init.Nat.min (4096 - Z.to_nat offset) (length b)) with (Z.to_nat n)
    by (unfold n; lia).
  rewrite drop_drop, Z.add_0_l.
  replace (Z.to_nat offset + Z.to_nat n)%nat with (Z.to_nat (offset + n))
    by (unfold n; lia).
  reflexivity.
Qed.

(** An empty source: [Read] reports [io.EOF] and writes nothing. *)
Lemma load_empty c offset :
  0 <= offset <= 4096 ->
  load offset (bytes.NewReader []) c
  = Returns (0, Some EOF, bytes.NewReader []) c.
Proof.
  intros Hoff. unfold load. run_go.
  replace ((0 <=? offset) && (offset <=? 4096)) with true by blia.
  unfold Read, bytes_Reader, bytes.Read, bytes.NewReader.
  cbn [bytes.s bytes.i length]. change (Z.of_nat 0 <=? 0) with true.
  cbv beta iota. rewrite take_drop. destruct c; reflexivity.
Qed.

(** C5 (counterexample to the specification's sentence that a source
    exceeding the available memory makes loading fail): two bytes loaded
    at offset 4095, where one byte of memory is left. [load] returns 1
    and a nil error: the second byte is dropped without any failure. *)
Lemma load_past_the_end_returns_no_error :
  exists c',
    load 4095 (bytes.NewReader [1; 2]) NewCPU
    = Returns (1, None, {| bytes.s := [1; 2]; bytes.i := 1 |}) c'
    /\ Memory c' !! 4095%nat = Some 1
    /\ length (Memory c') = 4096%nat.
Proof. eexists. split; [vm_compute; reflexivity|]. split; reflexivity. Qed.

(** C5 (amended): loading a byte sequence of length L at an offset O of
    [0, 4096]. When the sequence fits ([L <= 4096 - O]), [load] writes
    exactly the L bytes to memory[O, O+L), leaves the rest of memory as
    it was and returns L (with a nil error when L > 0). When the
    sequence exceeds what is left of memory, [load] does not fail: it
    writes the first [4096 - O] bytes of the sequence up to the end of
    memory and returns [4096 - O] with a nil error. *)
Theorem load_copies_what_fits c b offset :
  length (Memory c) = 4096%nat ->
  0 <= offset <= 4096 ->
  let L := Z.of_nat (length b) in
  let room := 4096 - offset in
  let O := Z.to_nat offset in
  (L <= room ->
     exists err r,
       load offset (bytes.NewReader b) c
       = Returns (L, err, r)
           (set_Memory (take O (Memory c) ++ b ++ drop (O + length b) (Memory c)) c)
       /\ (0 < L -> err = None))
  /\ (room < L ->
     exists r,
       load offset (bytes.NewReader b) c
       = Returns (room, None, r)
           (set_Memory (take O (Memory c) ++ take (Z.to_nat room) b) c)).
Proof.
  intros Hlen Hoff L room O. subst L room O. split.
  - intros Hfit. destruct (decide (b = [])) as [->|Hne].
    + exists (Some EOF), (bytes.NewReader []).
      split; [|intros HL; exfalso; cbn in HL; lia].
      rewrite load_empty by exact Hoff. cbn [length app].
      rewrite Nat.add_0_r, take_drop. destruct c; reflexivity.
    + assert (HL : 0 < Z.of_nat (length b)).
      { destruct b; [contradiction|]. cbn [length]. lia. }
      exists None. eexists. split; [|reflexivity].
      rewrite load_copies_the_minimum by assumption.
      rewrite Z.min_l by exact Hfit.
      rewrite (take_ge b) by lia.
      replace (Z.to_nat (offset + Z.of_nat (length b)))
        with (Z.to_nat offset + length b)%nat by lia.
      reflexivity.
  - intros Hover.
    assert (HL : 0 < Z.of_nat (length b)) by lia.
    eexists.
    rewrite load_copies_the_minimum by assumption.
    rewrite Z.min_r by lia.
    rewrite (drop_ge (Memory c)) by (rewrite Hlen; lia).
    rewrite app_nil_r. reflexivity.
Qed.

(** Two bytes at 0x300, as in the package's own test of [load]. *)
Lemma load_copies_what_fits_witness :
  exists err r,
    load 0x300 (bytes.NewReader [1; 2]) NewCPU
    = Returns (2, err, r)
        (set_Memory (take 0x300 (Memory NewCPU) ++ [1; 2]
                     ++ drop 0x302 (Memory NewCPU)) NewCPU)
    /\ (0 < 2 -> err = None).
Proof.
  destruct (load_copies_what_fits NewCPU [1; 2] 0x300) as [Hfit _];
    [reflexivity | lia |].
  apply Hfit. cbn. lia.
Defined.

(** ** Calls and returns *)

Lemma dispatch_call w opcode c :
  is_call opcode ->
  byte_ (StackPointer c + 1) < 16 ->
  dispatch w opcode c = Returns None (called (Z.land opcode 0x0FFF) c).
Proof.
  unfold is_call, class_of. intros Hc Hsp.
  pose proof (byte_range (StackPointer c + 1)).
  unfold dispatch. rewrite Hc. cbn [Z.eqb Pos.eqb]. run_go.
  replace ((0 <=? byte_ (StackPointer c + 1)) && (byte_ (StackPointer c + 1) <? 16))
    with true by blia.
  reflexivity.
Qed.

Lemma dispatch_call_overflow w opcode c :
  is_call opcode ->
  16 <= byte_ (StackPointer c + 1) ->
  dispatch w opcode c = Panics (IndexOutOfRange (byte_ (StackPointer c + 1)) 16).
Proof.
  unfold is_call, class_of. intros Hc Hsp.
  unfold dispatch. rewrite Hc. cbn [Z.eqb Pos.eqb]. run_go.
  replace ((0 <=? byte_ (StackPointer c + 1)) && (byte_ (StackPointer c + 1) <? 16))
    with false by blia.
  reflexivity.
Qed.

Lemma dispatch_return w c :
  0 <= StackPointer c < 16 ->
  dispatch w 0x00EE c = Returns None (returned c).
Proof.
  intros Hsp. unfold dispatch. change (Z.land 0x00EE 0xF000) with 0.
  cbn [Z.eqb Pos.eqb]. run_go.
  replace ((0 <=? StackPointer c) && (StackPointer c <? 16)) with true by blia.
  reflexivity.
Qed.

(** C7: a call opcode 2NNN executed where the stack has a free slot
    (the incremented stack pointer is below 16), followed by the return
    opcode 00EE: both return nil, and the program counter is then the
    call site's plus 2 (in [uint16], so exactly plus 2 unless the call
    site is one of the last two addresses of the 16-bit range). *)
Theorem call_then_return_resumes_after_call w w' opcode c :
  is_call opcode ->
  length (Stack c) = 16%nat ->
  byte_ (StackPointer c + 1) < 16 ->
  exists c1 c2,
    dispatch w opcode c = Returns None c1 /\
    dispatch w' 0x00EE c1 = Returns None c2 /\
    ProgramCounter c2 = uint16 (ProgramCounter c + 2) /\
    (0 <= ProgramCounter c < 65534 -> ProgramCounter c2 = ProgramCounter c + 2).
Proof.
  intros Hc Hlen Hsp. pose proof (byte_range (StackPointer c + 1)) as Hb.
  exists (called (Z.land opcode 0x0FFF) c),
         (returned (called (Z.land opcode 0x0FFF) c)).
  split; [apply dispatch_call; assumption|].
  split; [apply dispatch_return; cbn; lia|].
  assert (Hpc : ProgramCounter (returned (called (Z.land opcode 0x0FFF) c))
                = uint16 (ProgramCounter c + 2)).
  { unfold returned, called.
    cbn [ProgramCounter Stack StackPointer
         set_ProgramCounter set_Stack set_StackPointer].
    rewrite list_lookup_total_insert_eq by lia. reflexivity. }
  split; [exact Hpc|].
  intros Hrange. rewrite Hpc. apply uint16_small. lia.
Qed.

(** On a new machine: call 0xABC from 0x200, then return to 0x202. *)
Lemma call_then_return_resumes_after_call_witness :
  exists c1 c2,
    dispatch idle 0x2ABC NewCPU = Returns None c1 /\
    dispatch idle 0x00EE c1 = Returns None c2 /\
    ProgramCounter c2 = 0x202.
Proof.
  destruct (call_then_return_resumes_after_call idle idle 0x2ABC NewCPU)
    as (c1 & c2 & H1 & H2 & H3 & _); [reflexivity | reflexivity | reflexivity |].
  exists c1, c2. split; [exact H1|]. split; [exact H2|]. exact H3.
Defined.

Lemma length_pushed pc ops : length (pushed pc ops) = length ops.
Proof.
  revert pc. induction ops as [|op ops IH]; intros pc; cbn; [|rewrite IH];
    reflexivity.
Qed.

(** Nested calls from any depth that leaves room: each call writes the
    slot above the previous one. *)
Lemma calls_nested w ops : forall c,
  Forall is_call ops ->
  length (Stack c) = 16%nat ->
  0 <= StackPointer c ->
  StackPointer c + Z.of_nat (length ops) <= 15 ->
  exists c',
    calls w ops c = Returns tt c' /\
    StackPointer c' = StackPointer c + Z.of_nat (length ops) /\
    forall k : nat,
      Stack c' !! k =
      if (StackPointer c <? Z.of_nat k) && (Z.of_nat k <=? StackPointer c')
      then pushed (ProgramCounter c) ops !! (k - Z.to_nat (StackPointer c) - 1)%nat
      else Stack c !! k.
Proof.
  induction ops as [|op ops IH]; intros c Hops Hlen Hsp0 Hsp.
  - exists c. split; [reflexivity|]. split; [cbn; lia|].
    intros k.
    replace ((StackPointer c <? Z.of_nat k) && (Z.of_nat k <=? StackPointer c))
      with false by blia.
    reflexivity.
  - apply Forall_cons in Hops as [Hop Hops]. cbn [length] in Hsp.
    assert (Hb : byte_ (StackPointer c + 1) = StackPointer c + 1).
    { apply Z.mod_small. lia. }
    cbn [calls]. unfold bind. rewrite dispatch_call by (try exact Hop; lia).
    destruct (IH (called (Z.land op 0x0FFF) c)) as (c' & Hrun & Hsp' & Hst);
      try assumption.
    + unfold called. cbn. rewrite length_insert. exact Hlen.
    + unfold called. cbn. lia.
    + unfold called. cbn. lia.
    + unfold called in Hsp', Hst.
      cbn [ProgramCounter Stack StackPointer
           set_ProgramCounter set_Stack set_StackPointer] in Hsp', Hst.
      rewrite Hb in Hsp', Hst.
      exists c'. split; [exact Hrun|]. split; [cbn [length]; lia|].
      intros k. rewrite Hst. cbn [pushed].
      destruct (decide (Z.of_nat k = StackPointer c + 1)) as [Hk|Hk].
      * replace ((StackPointer c + 1 <? Z.of_nat k) && (Z.of_nat k <=? StackPointer c'))
          with false by blia.
        replace ((StackPointer c <? Z.of_nat k) && (Z.of_nat k <=? StackPointer c'))
          with true by blia.
        replace (k - Z.to_nat (StackPointer c) - 1)%nat with 0%nat by lia.
        replace (Z.to_nat (StackPointer c + 1)) with k by lia.
        cbn [lookup list_lookup]. apply list_lookup_insert_eq. lia.
      * rewrite list_lookup_insert_ne by lia.
        destruct ((StackPointer c + 1 <? Z.of_nat k) && (Z.of_nat k <=? StackPointer c'))
          eqn:E.
        -- apply andb_true_iff in E as [E1 E2].
           apply Z.ltb_lt in E1. apply Z.leb_le in E2.
           replace ((StackPointer c <? Z.of_nat k) && (Z.of_nat k <=? StackPointer c'))
             with true by blia.
           replace (k - Z.to_nat (StackPointer c) - 1)%nat
             with (S (k - Z.to_nat (StackPointer c + 1) - 1)) by lia.
           reflexivity.
        -- apply andb_false_iff in E.
           rewrite Z.ltb_ge, Z.leb_gt in E.
           replace ((StackPointer c <? Z.of_nat k) && (Z.of_nat k <=? StackPointer c'))
             with false by blia.
           reflexivity.
Qed.

(** C10: on a machine whose stack pointer is 0 (a new machine), up to
    15 nested calls return nil; the stack pointer is then the number of
    calls, the k-th call has written its return address to slot k
    (slots 1..15), and slot 0 and the slots above the last call keep
    what they held. After 15 calls a 16th call indexes slot 16 of the
    16-entry array and panics. A return executed with stack pointer 0
    reads slot 0 and wraps the stack pointer to 255. *)
Theorem calls_use_slots_1_to_15 w ops c :
  Forall is_call ops ->
  length (Stack c) = 16%nat ->
  StackPointer c = 0 ->
  (length ops <= 15)%nat ->
  exists c',
    calls w ops c = Returns tt c' /\
    StackPointer c' = Z.of_nat (length ops) /\
    Stack c' !! 0%nat = Stack c !! 0%nat /\
    (forall k : nat, (k < length ops)%nat ->
       Stack c' !! S k = pushed (ProgramCounter c) ops !! k) /\
    (forall k : nat, (length ops < k)%nat -> Stack c' !! k = Stack c !! k) /\
    (length ops = 15%nat -> forall op, is_call op ->
       dispatch w op c' = Panics (IndexOutOfRange 16 16)) /\
    (exists c'', dispatch w 0x00EE c = Returns None c'' /\ StackPointer c'' = 255).
Proof.
  intros Hops Hlen Hsp Hn.
  destruct (calls_nested w ops c Hops Hlen) as (c' & Hrun & Hsp' & Hst); try lia.
  rewrite Hsp in Hsp', Hst. rewrite Z.add_0_l in Hsp'.
  exists c'. split; [exact Hrun|]. split; [exact Hsp'|].
  split; [|split; [|split; [|split]]].
  - rewrite Hst. reflexivity.
  - intros k Hk. rewrite Hst.
    replace ((0 <? Z.of_nat (S k)) && (Z.of_nat (S k) <=? StackPointer c'))
      with true by blia.
    f_equal. cbn. lia.
  - intros k Hk. rewrite Hst.
    replace ((0 <? Z.of_nat k) && (Z.of_nat k <=? StackPointer c'))
      with false by blia.
    reflexivity.
  - intros H15 op Hop. rewrite dispatch_call_overflow; [|exact Hop|].
    + rewrite Hsp', H15. reflexivity.
    + rewrite Hsp', H15. vm_compute. discriminate.
  - exists (returned c). split; [apply dispatch_return; lia|].
    unfold returned. cbn. rewrite Hsp. reflexivity.
Qed.

Lemma fifteen_calls_are_calls : Forall is_call fifteen_calls.
Proof. apply Forall_replicate. reflexivity. Qed.

(** Fifteen calls on a new machine fill slots 1..15 and leave slot 0 at
    0; the sixteenth panics; a return on the new machine leaves the
    stack pointer at 255. *)
Lemma calls_use_slots_1_to_15_witness :
  exists c',
    calls idle fifteen_calls NewCPU = Returns tt c' /\
    StackPointer c' = 15 /\
    Stack c' !! 0%nat = Some 0 /\
    Stack c' !! 1%nat = Some 0x200 /\
    Stack c' !! 15%nat = Some 0x300 /\
    dispatch idle 0x2300 c' = Panics (IndexOutOfRange 16 16) /\
    (exists c'', dispatch idle 0x00EE NewCPU = Returns None c'' /\
                 StackPointer c'' = 255).
Proof.
  destruct (calls_use_slots_1_to_15 idle fifteen_calls NewCPU
              fifteen_calls_are_calls eq_refl eq_refl)
    as (c' & Hrun & Hsp & H0 & Hk & _ & H16 & Hret).
  { cbn. lia. }
  exists c'. split; [exact Hrun|]. split; [exact Hsp|].
  split; [exact H0|].
  split; [apply (Hk 0%nat); cbn; lia|].
  split; [apply (Hk 14%nat); cbn; lia|].
  split; [apply H16; reflexivity | exact Hret].
Defined.

(** ** Errors of dispatch *)

Lemma no_error_ret {S} : no_error (S := S) (ret None).
Proof. intros s e s' H. discriminate H. Qed.

Lemma no_error_bind {S A} (m : M S A) (f : A -> M S (option error)) :
  (forall a, no_error (f a)) -> no_error (bind m f).
Proof.
  intros Hf s e s' H. unfold bind in H.
  destruct (m s) as [a s1|p]; [|discriminate H].
  exact (Hf a s1 e s' H).
Qed.

Ltac solve_no_error :=
  repeat (apply no_error_bind; intros); apply no_error_ret.

(** [getKey] returns the key, the quit sentinel itself, or the wrapped
    error; it never panics and leaves the machine as it was. *)
Lemma getKey_eq w c :
  getKey w c =
  Returns (match keypad_of c w with
           | (b, Some e) => (b, Some (surfaced e))
           | (b, None) => (b, None)
           end) c.
Proof.
  unfold getKey, keypad, keypad_of, surfaced, KeypadFailure. run_go.
  destruct (Keypad_ c) as [k|].
  - destruct (k w) as [b [e|]]; [destruct (is_ErrQuit e)|]; reflexivity.
  - destruct (DefaultKeypad w) as [b [e|]]; [destruct (is_ErrQuit e)|]; reflexivity.
Qed.

(** A key-reading branch of [dispatch] returns an error only when the
    keypad did. *)
Lemma key_branch_error (k : Z -> M CPU (option error)) w c e c' :
  (forall b, no_error (k b)) ->
  bind (getKey w) (fun r => match r with
                            | (_, Some err) => ret (Some err)
                            | (b, None) => k b
                            end) c = Returns (Some e) c' ->
  c' = c /\ exists b e0, keypad_of c w = (b, Some e0) /\ e = surfaced e0.
Proof.
  intros Hk H. unfold bind in H. rewrite getKey_eq in H.
  destruct (keypad_of c w) as [b [e0|]].
  - injection H as <- <-. split; [reflexivity|]. eauto.
  - exfalso. exact (Hk b c e c' H).
Qed.

(** Every way [dispatch] returns an error: an unknown opcode, with the
    machine untouched, or a keypad error, with at most the program
    counter advanced. *)
Lemma dispatch_error w opcode c e c' :
  dispatch w opcode c = Returns (Some e) c' ->
  (c' = c /\ e = UnknownOpcode opcode)
  \/ ((c' = c \/ c' = set_ProgramCounter (uint16 (ProgramCounter c + 2)) c)
      /\ exists b e0, keypad_of c w = (b, Some e0) /\ e = surfaced e0).
Proof.
  intros H. cbv beta zeta delta [dispatch] in H.
  repeat split_if H;
    try (exfalso; revert H;
         apply no_error_bind || apply no_error_ret; intros; solve_no_error);
    try (injection H as <- <-; left; split; reflexivity).
  - right. unfold bind at 1 in H. cbn [addPC modify] in H.
    apply key_branch_error in H; [|intros; solve_no_error].
    destruct H as [-> Hk]. split; [right; reflexivity | exact Hk].
  - right. unfold bind at 1 in H. cbn [addPC modify] in H.
    apply key_branch_error in H; [|intros; solve_no_error].
    destruct H as [-> Hk]. split; [right; reflexivity | exact Hk].
  - right. apply key_branch_error in H; [|intros; solve_no_error].
    destruct H as [-> Hk]. split; [left; reflexivity | exact Hk].
Qed.

(** ** The cycle and the run loop *)

Lemma decodeOp_state c opcode c0 : decodeOp c = Returns opcode c0 -> c0 = c.
Proof.
  unfold decodeOp. run_go. intros H.
  repeat split_if H; try discriminate H.
  injection H as _ <-. reflexivity.
Qed.

Lemma emulateCycle_error w c opcode e c' :
  decodeOp c = Returns opcode c ->
  dispatch w opcode c = Returns (Some e) c' ->
  emulateCycle w c = Returns (opcode, Some e) c'.
Proof.
  intros Hd He. unfold emulateCycle. unfold bind at 1. rewrite Hd.
  unfold bind at 1. rewrite He. reflexivity.
Qed.

Lemma Run_tick_error w evs c opcode e c' :
  emulateCycle w c = Returns (opcode, Some e) c' ->
  Run (ClockTick w :: evs) c
  = Returns (Exited (if is_ErrQuit e then None else Some e)) c'.
Proof.
  intros H. cbn [Run]. unfold bind. rewrite H.
  destruct (is_ErrQuit e); reflexivity.
Qed.

(** A loop still waiting after [pre] goes on with the next events. *)
Lemma Run_app pre evs : forall c0 c,
  Run pre c0 = Returns Waiting c -> Run (pre ++ evs) c0 = Run evs c.
Proof.
  induction pre as [|ev pre IH]; intros c0 c H.
  - injection H as <-. reflexivity.
  - destruct ev as [|w]; [discriminate H|].
    cbn [Run app] in *. unfold bind in *.
    destruct (emulateCycle w c0) as [[op [err|]] c1|p]; [| |discriminate H].
    + destruct (is_ErrQuit err); discriminate H.
    + apply IH. exact H.
Qed.

(** C8: when [dispatch] of the fetched opcode returns an error,
    [emulateCycle] returns that same error with the opcode, and the
    delay timer, the sound timer and the output are as they were before
    the cycle: no timer is decremented and no cue is printed. The run
    loop receives the error and exits with it (with nil when it is the
    quit sentinel). *)
Theorem failed_dispatch_skips_the_timers w evs c opcode e c' :
  decodeOp c = Returns opcode c ->
  dispatch w opcode c = Returns (Some e) c' ->
  emulateCycle w c = Returns (opcode, Some e) c'
  /\ DelayTimer c' = DelayTimer c
  /\ SoundTimer c' = SoundTimer c
  /\ Stdout c' = Stdout c
  /\ Run (ClockTick w :: evs) c
     = Returns (Exited (if is_ErrQuit e then None else Some e)) c'.
Proof.
  intros Hd He.
  pose proof (emulateCycle_error w c opcode e c' Hd He) as Hc.
  split; [exact Hc|].
  assert (Hst : c' = c \/ c' = set_ProgramCounter (uint16 (ProgramCounter c + 2)) c).
  { destruct (dispatch_error w opcode c e c' He) as [[-> _]|[Hs _]];
      [left; reflexivity | exact Hs]. }
  repeat split; try (destruct Hst as [-> | ->]; reflexivity).
  apply Run_tick_error with (opcode := opcode). exact Hc.
Qed.

(** Both timers running and opcode 0x0000 at the program counter: the
    cycle fails with [UnknownOpcode] and the timers stay at 9 and 1. *)
Lemma failed_dispatch_skips_the_timers_witness :
  emulateCycle idle ticking = Returns (0, Some (UnknownOpcode 0)) ticking
  /\ DelayTimer ticking = 9
  /\ SoundTimer ticking = 1
  /\ Stdout ticking = []
  /\ Run [ClockTick idle] ticking
     = Returns (Exited (Some (UnknownOpcode 0))) ticking.
Proof.
  apply (failed_dispatch_skips_the_timers idle [] ticking 0
           (UnknownOpcode 0) ticking); reflexivity.
Defined.

(** A key-reading opcode passes on what [getKey] makes of the keypad's
    error. *)
Lemma dispatch_reads_key w opcode c b e :
  reads_key opcode = true ->
  keypad_of c w = (b, Some e) ->
  exists c', dispatch w opcode c = Returns (Some (surfaced e)) c'.
Proof.
  intros Hop Hk. unfold reads_key, class_of in Hop. cbv beta zeta delta [dispatch].
  apply orb_true_iff in Hop as [Hop|Hop]; apply andb_true_iff in Hop as [Hc Hl].
  - apply Z.eqb_eq in Hc. rewrite Hc. cbn [Z.eqb Pos.eqb].
    apply orb_true_iff in Hl as [Hl|Hl]; apply Z.eqb_eq in Hl; rewrite Hl;
      cbn [Z.eqb Pos.eqb];
      unfold bind at 1; cbn [addPC modify]; unfold bind at 1;
      rewrite getKey_eq; unfold keypad_of in *;
      cbn [Keypad_ set_ProgramCounter]; rewrite Hk; eexists; reflexivity.
  - apply Z.eqb_eq in Hc. rewrite Hc. cbn [Z.eqb Pos.eqb].
    apply Z.eqb_eq in Hl. rewrite Hl. cbn [Z.eqb Pos.eqb].
    unfold bind at 1. rewrite getKey_eq, Hk. eexists; reflexivity.
Qed.

(** C9: the run loop has run some cycles and is waiting; the next tick
    fetches a key-reading opcode (EX9E, EXA1 or FX0A) and the keypad
    returns an error [e]. If [e] is the quit sentinel, [dispatch]
    returns the sentinel itself and [Run] returns nil. If [e] is any
    other error, [dispatch] returns the error that wraps [e]'s message,
    which is not the sentinel, and [Run] returns that error. *)
Theorem quit_ends_the_run_other_keypad_errors_are_fatal
    pre w evs c0 c opcode b e :
  Run pre c0 = Returns Waiting c ->
  decodeOp c = Returns opcode c ->
  reads_key opcode = true ->
  keypad_of c w = (b, Some e) ->
  exists c',
    (e = ErrQuit ->
       dispatch w opcode c = Returns (Some ErrQuit) c' /\
       Run (pre ++ ClockTick w :: evs) c0 = Returns (Exited None) c') /\
    (e <> ErrQuit ->
       dispatch w opcode c = Returns (Some (KeypadFailure e)) c' /\
       KeypadFailure e <> ErrQuit /\
       Run (pre ++ ClockTick w :: evs) c0
       = Returns (Exited (Some (KeypadFailure e))) c').
Proof.
  intros Hpre Hd Hop Hk.
  destruct (dispatch_reads_key w opcode c b e Hop Hk) as (c' & Hdis).
  exists c'.
  pose proof (Run_tick_error w evs c opcode _ c'
                (emulateCycle_error w c opcode _ c' Hd Hdis)) as Hrun.
  rewrite <- (Run_app pre (ClockTick w :: evs) c0 c Hpre) in Hrun.
  split.
  - intros ->. split; [exact Hdis | exact Hrun].
  - intros Hne.
    assert (Hq : is_ErrQuit e = false)
      by (destruct e; try reflexivity; contradiction).
    unfold surfaced in Hdis, Hrun. rewrite Hq in Hdis, Hrun.
    split; [exact Hdis|]. split; [discriminate | exact Hrun].
Qed.

(** The escape key pressed while the program waits for a key: the run
    ends with nil. *)
Lemma quit_ends_the_run_other_keypad_errors_are_fatal_witness :
  exists c',
    dispatch escape_pressed 0xF00A awaiting_key = Returns (Some ErrQuit) c' /\
    Run [ClockTick escape_pressed] awaiting_key = Returns (Exited None) c'.
Proof.
  destruct (quit_ends_the_run_other_keypad_errors_are_fatal
              [] escape_pressed [] awaiting_key awaiting_key 0xF00A 0 ErrQuit)
    as (c' & Hquit & _); [reflexivity | reflexivity | reflexivity | reflexivity |].
  exists c'. apply Hquit. reflexivity.
Defined.

(** Without a keypad the default one answers with an error that is not
    the sentinel: the run ends with the wrapped error. *)
Lemma null_keypad_is_fatal :
  Run [ClockTick idle]
    (set_Memory (<[0x201%nat := 0x0A]> (<[0x200%nat := 0xF0]> (Memory NewCPU))) NewCPU)
  = Returns
      (Exited (Some (errorString
         "chip8: unable to get key from keypad: null keypad not usable")))
      (set_Memory (<[0x201%nat := 0x0A]> (<[0x200%nat := 0xF0]> (Memory NewCPU))) NewCPU).
Proof. vm_compute. reflexivity. Qed.

(** * Further properties

    Properties of the rest of the dispatch table, of the fetch, of the
    sprite writer, of the keypad and of the run loop, read off the
    source. *)
Lemma nibble_y opcode : 0 <= Z.shiftr (Z.land opcode 0x00F0) 4 < 16.
Proof.
  rewrite Z.shiftr_land. change (Z.shiftr 0x00F0 4) with (Z.ones 4).
  rewrite Z.land_ones by lia. apply Z.mod_pos_bound. lia.
Qed.

Lemma bytes_in_lookup l i : bytes_in l -> 0 <= l !!! i < 256.
Proof.
  intros H. destruct (l !! i) as [v|] eqn:E.
  - rewrite (list_lookup_total_correct _ _ _ E).
    exact (proj1 (Forall_lookup _ l) H i v E).
  - rewrite list_lookup_total_alt, E. cbn. lia.
Qed.

Ltac enter_class Hc :=
  unfold class_of in Hc; unfold dispatch; rewrite Hc; cbn [Z.eqb Pos.eqb].

Ltac in_range x :=
  replace ((0 <=? x) && (x <? 16)) with true by blia.

(** X7: opcode 8XY4 on byte registers sets VF to 1 when V[X] + V[Y]
    exceeds 255 and to 0 otherwise, then V[X] to the sum modulo 256 (so
    for X = F the sum overwrites the flag), and advances the program
    counter by 2. *)
Theorem dispatch_8XY4_adds_with_carry w opcode c :
  class_of opcode = 0x8000 ->
  Z.land opcode 0x000F = 0x4 ->
  bytes_in (V c) ->
  let x := Z.to_nat (Z.shiftr (Z.land opcode 0x0F00) 8) in
  let y := Z.to_nat (Z.shiftr (Z.land opcode 0x00F0) 4) in
  let sum := V c !!! x + V c !!! y in
  let carry := if 255 <? sum then 1 else 0 in
  dispatch w opcode c
  = Returns None
      (set_ProgramCounter (uint16 (ProgramCounter c + 2))
         (set_V (<[x := sum mod 256]> (<[15%nat := carry]> (V c))) c)).
Proof.
  intros Hc Hl Hb x y sum carry. enter_class Hc. rewrite Hl. cbn [Z.eqb Pos.eqb].
  pose proof (nibble_x opcode) as Hx. pose proof (nibble_y opcode) as Hy.
  pose proof (bytes_in_lookup (V c) x Hb) as Hvx.
  pose proof (bytes_in_lookup (V c) y Hb) as Hvy.
  run_go.
  in_range (Z.shiftr (Z.land opcode 0x0F00) 8).
  in_range (Z.shiftr (Z.land opcode 0x00F0) 4).
  cbn [Z.leb Z.ltb Z.compare andb]. fold x y.
  rewrite (uint16_small (V c !!! x)), (uint16_small (V c !!! y)) by lia.
  rewrite (uint16_small (V c !!! x + V c !!! y)) by lia.
  reflexivity.
Qed.


Lemma bytes_in_NewCPU : bytes_in (V NewCPU).
Proof. apply Forall_forall. intros v Hv. vm_compute in Hv.
  repeat (apply elem_of_cons in Hv as [->|Hv]; [lia|]). apply elem_of_nil in Hv. contradiction.
Qed.

Lemma bytes_in_insert l i v : bytes_in l -> 0 <= v < 256 -> bytes_in (<[i := v]> l).
Proof. intros Hl Hv. apply Forall_insert; assumption. Qed.

Lemma dispatch_8XY4_adds_with_carry_witness :
  exists c',
    dispatch idle 0x8014 add_example = Returns None c' /\
    V c' !! 0%nat = Some 44 /\ V c' !! 15%nat = Some 1.
Proof.
  eexists. split.
  - apply (dispatch_8XY4_adds_with_carry idle 0x8014 add_example);
      [reflexivity | reflexivity |].
    repeat apply bytes_in_insert; try lia. apply bytes_in_NewCPU.
  - split; reflexivity.
Defined.

(** X8: opcode 8XY5 sets VF to 1 only when V[X] is strictly greater
    than V[Y] (equal operands give 0), then V[X] to the difference,
    modulo 256, of the registers as they are after the flag is written;
    when neither X nor Y is F that is V[X] - V[Y]. *)
Theorem dispatch_8XY5_subtracts w opcode c :
  class_of opcode = 0x8000 ->
  Z.land opcode 0x000F = 0x5 ->
  let x := Z.to_nat (Z.shiftr (Z.land opcode 0x0F00) 8) in
  let y := Z.to_nat (Z.shiftr (Z.land opcode 0x00F0) 4) in
  let no_borrow := if V c !!! y <? V c !!! x then 1 else 0 in
  let flagged := <[15%nat := no_borrow]> (V c) in
  dispatch w opcode c
  = Returns None
      (set_ProgramCounter (uint16 (ProgramCounter c + 2))
         (set_V (<[x := (flagged !!! x - flagged !!! y) mod 256]> flagged) c))
  /\ (V c !!! x = V c !!! y -> no_borrow = 0)
  /\ (x <> 15%nat -> y <> 15%nat ->
      flagged !!! x - flagged !!! y = V c !!! x - V c !!! y).
Proof.
  intros Hc Hl x y nb flagged. split; [|split].
  - enter_class Hc. rewrite Hl. cbn [Z.eqb Pos.eqb].
    pose proof (nibble_x opcode) as Hx. pose proof (nibble_y opcode) as Hy.
    run_go.
    in_range (Z.shiftr (Z.land opcode 0x0F00) 8).
    in_range (Z.shiftr (Z.land opcode 0x00F0) 4).
    cbn [Z.leb Z.ltb Z.compare andb]. reflexivity.
  - intros Heq. unfold nb. rewrite Heq, Z.ltb_irrefl. reflexivity.
  - intros Hx Hy. unfold flagged.
    rewrite !list_lookup_total_insert_ne by congruence. reflexivity.
Qed.


Lemma Set_in_range x y on g :
  0 <= x -> 0 <= y -> x + y * GraphicsWidth < PixelCount ->
  Gfx.Set_ x y on g
  = Returns (Pixels g !!! cell y x =? 1)
      (set_Pixels (<[cell y x := Z.lxor (Pixels g !!! cell y x) (if on then 1 else 0)]>
                     (Pixels g)) g).
Proof.
  intros Hx Hy Hlt. unfold Gfx.Set_, cell.
  rewrite (uint16_small (y * GraphicsWidth)) by (grid; lia).
  rewrite (uint16_small (x + y * GraphicsWidth)) by (grid; lia).
  run_go.
  replace ((0 <=? x + y * GraphicsWidth) && (x + y * GraphicsWidth <? PixelCount))
    with true by (grid; blia).
  replace (x + y * GraphicsWidth) with (y * GraphicsWidth + x) by lia.
  reflexivity.
Qed.

Lemma fst_foldl_xor_pixel us : forall px b,
  (foldl xor_pixel (px, b) us).1 = foldl xor_at px us.
Proof.
  induction us as [|u us IH]; intros px b; [reflexivity|].
  cbn [foldl]. unfold xor_pixel at 2. cbn [fst snd]. rewrite IH. reflexivity.
Qed.

Lemma length_foldl_xor_at us : forall px, length (foldl xor_at px us) = length px.
Proof.
  induction us as [|u us IH]; intros px; [reflexivity|].
  cbn [foldl]. rewrite IH. unfold xor_at. apply length_insert.
Qed.

(** One row of [WriteSprite]. *)
Lemma WriteSprite_row g0 r x yp px acc :
  0 <= x <= 120 -> 0 <= yp < GraphicsHeight ->
  exists st,
    st = foldl xor_pixel (px, acc) (row_cells r x yp (seqZ 0 8)) /\
    for_each (seqZ 0 8) (fun xl collision =>
      let i := Z.shiftr 0x80 (byte_ xl) in
      let on := Z.land r (byte_ i) =? byte_ i in
      let xp := uint16 (uint16 x + uint16 xl) in
      let xp := if GraphicsWidth <=? xp then uint16 (xp - GraphicsWidth) else xp in
      hit <- Gfx.Set_ xp yp on ;;
      ret (if hit then true else collision)) acc (set_Pixels px g0)
    = Returns st.2 (set_Pixels st.1 g0).
Proof.
  intros Hx Hyp.
  destruct (for_each_inv
    (fun pre coll g =>
       g = set_Pixels (foldl xor_pixel (px, acc) (row_cells r x yp pre)).1 g0 /\
       coll = (foldl xor_pixel (px, acc) (row_cells r x yp pre)).2)
    (fun xl collision =>
      let i := Z.shiftr 0x80 (byte_ xl) in
      let on := Z.land r (byte_ i) =? byte_ i in
      let xp := uint16 (uint16 x + uint16 xl) in
      let xp := if GraphicsWidth <=? xp then uint16 (xp - GraphicsWidth) else xp in
      hit <- Gfx.Set_ xp yp on ;;
      ret (if hit then true else collision))
    (seqZ 0 8) acc (set_Pixels px g0)) as (coll & g' & Hrun & -> & ->).
  - split; reflexivity.
  - intros pre xl post coll s Hsplit [-> ->].
    pose proof (elem_of_middle _ _ _ _ _ _ Hsplit eq_refl) as Hxl.
    cbv zeta.
    assert (Hxp : (if GraphicsWidth <=? uint16 (uint16 x + uint16 xl)
                   then uint16 (uint16 (uint16 x + uint16 xl) - GraphicsWidth)
                   else uint16 (uint16 x + uint16 xl))
                  = wrap_once GraphicsWidth (x + xl)).
    { rewrite (uint16_small x), (uint16_small xl) by lia.
      rewrite (uint16_small (x + xl)) by lia. unfold wrap_once.
      destruct (GraphicsWidth <=? x + xl) eqn:E; [|reflexivity].
      apply uint16_small. grid. apply Z.leb_le in E. lia. }
    rewrite Hxp.
    assert (Hw : 0 <= wrap_once GraphicsWidth (x + xl) < GraphicsWidth).
    { unfold wrap_once. grid. destruct (64 <=? x + xl) eqn:E; lia. }
    unfold bind. rewrite Set_in_range by (grid; lia).
    do 2 eexists. split; [reflexivity|].
    unfold row_cells. rewrite fmap_app, foldl_app. cbn [fmap list_fmap foldl].
    unfold xor_pixel at 1 3. cbn [fst snd set_Pixels Pixels].
    unfold sprite_bit. split; reflexivity.
  - eexists. split; [reflexivity|]. exact Hrun.
Qed.


Lemma set_Pixels_same g : set_Pixels (Pixels g) g = g.
Proof. destruct g; reflexivity. Qed.

(** Inside the region where one subtraction suffices, [WriteSprite] is
    the fold of [xor_pixel] over the cells of the sprite. *)
Lemma WriteSprite_folds g sprite x y :
  0 <= x <= 120 -> 0 <= y -> y + Z.of_nat (length sprite) <= 2 * GraphicsHeight ->
  exists st,
    st = foldl xor_pixel (Pixels g, false)
           (sprite_cells sprite x y (seqZ 0 (Z.of_nat (length sprite)))) /\
    Gfx.WriteSprite sprite x y g = Returns st.2 (set_Pixels st.1 g).
Proof.
  intros Hx Hy Hn. unfold Gfx.WriteSprite.
  destruct (for_each_inv
    (fun pre coll g' =>
       g' = set_Pixels (foldl xor_pixel (Pixels g, false) (sprite_cells sprite x y pre)).1 g /\
       coll = (foldl xor_pixel (Pixels g, false) (sprite_cells sprite x y pre)).2)
    (fun yl collision =>
      let r := sprite !!! Z.to_nat yl in
      for_each (seqZ 0 8) (fun xl collision =>
        let i := Z.shiftr 0x80 (byte_ xl) in
        let on := Z.land r (byte_ i) =? byte_ i in
        let xp := uint16 (uint16 x + uint16 xl) in
        let xp := if GraphicsWidth <=? xp then uint16 (xp - GraphicsWidth) else xp in
        let yp := uint16 (uint16 y + uint16 yl) in
        let yp := if GraphicsHeight <=? yp then uint16 (yp - GraphicsHeight) else yp in
        hit <- Gfx.Set_ xp yp on ;;
        ret (if hit then true else collision)) collision)
    (seqZ 0 (Z.of_nat (length sprite))) false g) as (coll & g' & Hrun & -> & ->).
  - cbn. split; [symmetry; apply set_Pixels_same | reflexivity].
  - intros pre yl post coll s Hsplit [-> ->].
    pose proof (elem_of_middle _ _ _ _ _ _ Hsplit eq_refl) as Hyl.
    cbv zeta.
    assert (Hyp : (if GraphicsHeight <=? uint16 (uint16 y + uint16 yl)
                   then uint16 (uint16 (uint16 y + uint16 yl) - GraphicsHeight)
                   else uint16 (uint16 y + uint16 yl))
                  = wrap_once GraphicsHeight (y + yl)).
    { grid. rewrite (uint16_small y), (uint16_small yl) by lia.
      rewrite (uint16_small (y + yl)) by lia. unfold wrap_once.
      destruct (32 <=? y + yl) eqn:E; [|reflexivity].
      apply uint16_small. apply Z.leb_le in E. lia. }
    rewrite Hyp.
    assert (Hw : 0 <= wrap_once GraphicsHeight (y + yl) < GraphicsHeight).
    { unfold wrap_once. grid. destruct (32 <=? y + yl) eqn:E; lia. }
    set (st0 := foldl xor_pixel (Pixels g, false) (sprite_cells sprite x y pre)).
    destruct (WriteSprite_row g (sprite !!! Z.to_nat yl) x
                (wrap_once GraphicsHeight (y + yl)) st0.1 st0.2 Hx Hw)
      as (st & Hst & Hrow).
    exists st.2, (set_Pixels st.1 g). split; [exact Hrow|].
    unfold sprite_cells. rewrite bind_app, foldl_app. cbn [mbind list_bind].
    rewrite app_nil_r. fold (sprite_cells sprite x y pre). fold st0.
    rewrite Hst. destruct st0; split; reflexivity.
  - eexists. split; [reflexivity|]. exact Hrun.
Qed.


Lemma xor_at_twice px u :
  (u.1 < length px)%nat -> xor_at (xor_at px u) u = px.
Proof.
  intros Hu. destruct u as [a v]. unfold xor_at. cbn [fst snd] in *.
  rewrite list_lookup_total_insert_eq by exact Hu.
  rewrite list_insert_insert_eq.
  rewrite Z.lxor_assoc, Z.lxor_nilpotent, Z.lxor_0_r.
  apply list_insert_id. apply list_lookup_lookup_total_lt. exact Hu.
Qed.

Lemma xor_at_comm px u w :
  (u.1 < length px)%nat -> (w.1 < length px)%nat ->
  xor_at (xor_at px u) w = xor_at (xor_at px w) u.
Proof.
  intros Hu Hw. destruct u as [a v], w as [b t]. unfold xor_at. cbn [fst snd] in *.
  destruct (decide (a = b)) as [->|Hne].
  - rewrite !list_lookup_total_insert_eq by assumption.
    rewrite !list_insert_insert_eq. f_equal.
    rewrite !Z.lxor_assoc. f_equal. apply Z.lxor_comm.
  - rewrite !list_lookup_total_insert_ne by congruence.
    apply list_insert_insert_ne. congruence.
Qed.

Lemma foldl_xor_at_comm us : forall px u,
  cells_within (length px) us -> (u.1 < length px)%nat ->
  foldl xor_at (xor_at px u) us = xor_at (foldl xor_at px us) u.
Proof.
  induction us as [|w us IH]; intros px u Hus Hu; [reflexivity|].
  apply Forall_cons in Hus as [Hw Hus]. cbn [foldl].
  rewrite (xor_at_comm px u w) by assumption.
  assert (Hlen : length (xor_at px w) = length px) by apply length_insert.
  apply IH; rewrite Hlen; assumption.
Qed.

Lemma foldl_xor_at_twice us : forall px,
  cells_within (length px) us -> foldl xor_at (foldl xor_at px us) us = px.
Proof.
  induction us as [|u us IH]; intros px Hus; [reflexivity|].
  apply Forall_cons in Hus as [Hu Hus]. cbn [foldl].
  rewrite (foldl_xor_at_comm us px u) by assumption.
  rewrite xor_at_twice by (rewrite length_foldl_xor_at; exact Hu).
  apply IH. exact Hus.
Qed.

Lemma foldl_xor_at_frame us : forall px (a : nat),
  a ∉ us.*1 -> foldl xor_at px us !! a = px !! a.
Proof.
  induction us as [|u us IH]; intros px a Ha; [reflexivity|].
  cbn [fmap list_fmap] in Ha. apply not_elem_of_cons in Ha as [Hne Ha].
  cbn [foldl]. rewrite IH by exact Ha. unfold xor_at.
  apply list_lookup_insert_ne. congruence.
Qed.

Lemma wrap_once_range dim v : 0 < dim -> 0 <= v < 2 * dim -> 0 <= wrap_once dim v < dim.
Proof. intros Hd Hv. unfold wrap_once. destruct (dim <=? v) eqn:E; lia. Qed.

Lemma sprite_cells_within sprite x y yls :
  0 <= x <= 120 -> 0 <= y ->
  Forall (fun yl => 0 <= yl /\ y + yl < 2 * GraphicsHeight) yls ->
  cells_within 2048 (sprite_cells sprite x y yls).
Proof.
  intros Hx Hy Hyls. unfold sprite_cells, cells_within.
  apply Forall_forall. intros u Hu.
  apply list_elem_of_bind in Hu as (yl & Hu & Hyl).
  unfold row_cells in Hu. apply list_elem_of_fmap in Hu as (xl & -> & Hxl).
  apply elem_of_seqZ in Hxl.
  pose proof (proj1 (Forall_forall _ _) Hyls yl Hyl) as [Hyl0 Hyl1].
  cbn [fst]. unfold cell.
  pose proof (wrap_once_range GraphicsWidth (x + xl)) as Hwx.
  pose proof (wrap_once_range GraphicsHeight (y + yl)) as Hwy.
  grid. lia.
Qed.

Lemma rows_in_grid (n y : Z) :
  0 <= y -> y + n <= 2 * GraphicsHeight ->
  Forall (fun yl => 0 <= yl /\ y + yl < 2 * GraphicsHeight) (seqZ 0 n).
Proof.
  intros Hy Hn. apply Forall_forall. intros yl Hyl. apply elem_of_seqZ in Hyl. lia.
Qed.

(** X17: for a start column of at most 120 and a sprite that ends at
    or above row 63 ([y + rows <= 64]), [WriteSprite] returns: every
    index stays inside the pixel array, whose length is kept, and every
    pixel that is not one of the sprite's cells keeps its value. *)
Theorem WriteSprite_stays_in_grid g sprite x y :
  0 <= x <= 120 -> 0 <= y -> y + Z.of_nat (length sprite) <= 2 * GraphicsHeight ->
  exists collision g',
    Gfx.WriteSprite sprite x y g = Returns collision g' /\
    length (Pixels g') = length (Pixels g) /\
    forall a : nat,
      a ∉ (sprite_cells sprite x y (seqZ 0 (Z.of_nat (length sprite)))).*1 ->
      Pixels g' !! a = Pixels g !! a.
Proof.
  intros Hx Hy Hn.
  destruct (WriteSprite_folds g sprite x y Hx Hy Hn) as (st & -> & Hrun).
  do 2 eexists. split; [exact Hrun|].
  cbn [Pixels set_Pixels]. rewrite fst_foldl_xor_pixel. split.
  - apply length_foldl_xor_at.
  - intros a Ha. apply foldl_xor_at_frame. exact Ha.
Qed.

(** X18: in that region, drawing the same sprite twice at the same
    place gives back the graphics buffer exactly as it was, whatever the
    pixels held. *)
Theorem WriteSprite_twice_restores g sprite x y :
  length (Pixels g) = 2048%nat ->
  0 <= x <= 120 -> 0 <= y -> y + Z.of_nat (length sprite) <= 2 * GraphicsHeight ->
  exists collision1 g1 collision2,
    Gfx.WriteSprite sprite x y g = Returns collision1 g1 /\
    Gfx.WriteSprite sprite x y g1 = Returns collision2 g.
Proof.
  intros Hlen Hx Hy Hn.
  destruct (WriteSprite_folds g sprite x y Hx Hy Hn) as (st & -> & Hrun).
  set (us := sprite_cells sprite x y (seqZ 0 (Z.of_nat (length sprite)))) in *.
  destruct (WriteSprite_folds (set_Pixels (foldl xor_pixel (Pixels g, false) us).1 g)
              sprite x y Hx Hy Hn) as (st2 & -> & Hrun2).
  fold us in Hrun2. cbn [Pixels set_Pixels] in Hrun2.
  do 3 eexists. split; [exact Hrun|]. rewrite Hrun2. f_equal.
  rewrite fst_foldl_xor_pixel.
  rewrite (fst_foldl_xor_pixel us (Pixels g) false).
  rewrite foldl_xor_at_twice.
  - destruct g; reflexivity.
  - rewrite Hlen. apply sprite_cells_within; try assumption.
    apply rows_in_grid; assumption.
Qed.


Lemma foldl_xor_pixel_collision us : forall px b,
  NoDup us.*1 ->
  (foldl xor_pixel (px, b) us).2 = true
  <-> b = true \/ exists u, u ∈ us /\ px !!! u.1 = 1.
Proof.
  induction us as [|u us IH]; intros px b Hnd.
  - cbn. split; [auto|]. intros [H|(u & Hu & _)]; [exact H|].
    apply elem_of_nil in Hu. contradiction.
  - cbn [fmap list_fmap] in Hnd. apply NoDup_cons in Hnd as [Hu Hnd].
    cbn [foldl]. unfold xor_pixel at 2. cbn [fst snd].
    rewrite IH by exact Hnd. split.
    + intros [Hb|(w & Hw & Hpx)].
      * destruct (px !!! u.1 =? 1) eqn:E.
        -- right. exists u. split; [left|apply Z.eqb_eq; exact E].
        -- left. exact Hb.
      * right. exists w. split; [right; exact Hw|].
        rewrite list_lookup_total_insert_ne in Hpx; [exact Hpx|].
        intros Heq. apply Hu. rewrite Heq. apply list_elem_of_fmap. eauto.
    + intros [Hb|(w & Hw & Hpx)].
      * left. rewrite Hb. destruct (_ =? _); reflexivity.
      * apply elem_of_cons in Hw as [->|Hw].
        -- left. apply Z.eqb_eq in Hpx. rewrite Hpx. reflexivity.
        -- right. exists w. split; [exact Hw|].
           rewrite list_lookup_total_insert_ne; [exact Hpx|].
           intros Heq. apply Hu. rewrite Heq. apply list_elem_of_fmap. eauto.
Qed.

Lemma foldl_xor_at_lookup us : forall px u,
  NoDup us.*1 -> u ∈ us -> (u.1 < length px)%nat ->
  foldl xor_at px us !!! u.1 = Z.lxor (px !!! u.1) u.2.
Proof.
  induction us as [|w us IH]; intros px u Hnd Hu Hlen.
  - apply elem_of_nil in Hu. contradiction.
  - cbn [fmap list_fmap] in Hnd. apply NoDup_cons in Hnd as [Hw Hnd].
    cbn [foldl]. apply elem_of_cons in Hu as [->|Hu].
    + rewrite list_lookup_total_alt, foldl_xor_at_frame by exact Hw.
      rewrite <- list_lookup_total_alt. unfold xor_at.
      apply list_lookup_total_insert_eq. exact Hlen.
    + rewrite IH; [|exact Hnd|exact Hu|unfold xor_at; rewrite length_insert; exact Hlen].
      unfold xor_at. rewrite list_lookup_total_insert_ne; [reflexivity|].
      intros Heq. apply Hw. rewrite Heq. apply list_elem_of_fmap. eauto.
Qed.

Lemma sprite_cells_elem u sprite x y yls :
  u ∈ sprite_cells sprite x y yls <->
  exists yl xl, yl ∈ yls /\ 0 <= xl < 8 /\
    u = (cell (wrap_once GraphicsHeight (y + yl)) (wrap_once GraphicsWidth (x + xl)),
         sprite_bit (sprite !!! Z.to_nat yl) xl).
Proof.
  unfold sprite_cells, row_cells. rewrite list_elem_of_bind. split.
  - intros (yl & Hu & Hyl). apply list_elem_of_fmap in Hu as (xl & -> & Hxl).
    apply elem_of_seqZ in Hxl. exists yl, xl. split; [exact Hyl|]. split; [lia|reflexivity].
  - intros (yl & xl & Hyl & Hxl & ->). exists yl. split; [|exact Hyl].
    apply list_elem_of_fmap. exists xl. split; [reflexivity|]. apply elem_of_seqZ. lia.
Qed.

Lemma cell_wrapped_inj x y yl yl' xl xl' :
  0 <= x <= 120 -> 0 <= y ->
  0 <= yl -> 0 <= yl' -> y + yl < 2 * GraphicsHeight -> y + yl' < 2 * GraphicsHeight ->
  yl - yl' < GraphicsHeight -> yl' - yl < GraphicsHeight ->
  0 <= xl < 8 -> 0 <= xl' < 8 ->
  cell (wrap_once GraphicsHeight (y + yl)) (wrap_once GraphicsWidth (x + xl))
  = cell (wrap_once GraphicsHeight (y + yl')) (wrap_once GraphicsWidth (x + xl')) ->
  yl = yl' /\ xl = xl'.
Proof.
  intros Hx Hy Hyl Hyl' Hb Hb' Hd Hd' Hxl Hxl'. unfold cell, wrap_once. grid.
  destruct (32 <=? y + yl) eqn:E1; destruct (32 <=? y + yl') eqn:E2;
    destruct (64 <=? x + xl) eqn:E3; destruct (64 <=? x + xl') eqn:E4;
    intros Heq; lia.
Qed.


Lemma sprite_cells_NoDup sprite x y n :
  0 <= x <= 120 -> 0 <= y -> y + n <= 2 * GraphicsHeight -> n <= GraphicsHeight ->
  NoDup (sprite_cells sprite x y (seqZ 0 n)).*1.
Proof.
  intros Hx Hy Hn Hn32.
  assert (Hinj : forall u w,
            u ∈ sprite_cells sprite x y (seqZ 0 n) ->
            w ∈ sprite_cells sprite x y (seqZ 0 n) -> u.1 = w.1 -> u = w).
  { intros u w Hu Hw Heq.
    apply sprite_cells_elem in Hu as (yl & xl & Hyl & Hxl & ->).
    apply sprite_cells_elem in Hw as (yl' & xl' & Hyl' & Hxl' & ->).
    apply elem_of_seqZ in Hyl, Hyl'. cbn [fst] in Heq.
    apply cell_wrapped_inj in Heq as [Hyy Hxx]; try assumption; try lia.
    rewrite Hyy, Hxx. reflexivity. }
  apply NoDup_fmap_2_strong; [exact Hinj|].
  unfold sprite_cells. apply NoDup_bind.
  - intros yl yl' u Hyl Hyl' Hu Hu'.
    unfold row_cells in Hu, Hu'.
    apply list_elem_of_fmap in Hu as (xl & -> & Hxl).
    apply list_elem_of_fmap in Hu' as (xl' & Heq & Hxl').
    apply elem_of_seqZ in Hyl, Hyl', Hxl, Hxl'.
    injection Heq as Heq _.
    apply cell_wrapped_inj in Heq as [Heq _]; try assumption; try lia.
  - intros yl Hyl. apply elem_of_seqZ in Hyl. unfold row_cells.
    apply NoDup_fmap_2_strong; [|apply NoDup_seqZ].
    intros xl xl' Hxl Hxl' Heq. apply elem_of_seqZ in Hxl, Hxl'.
    injection Heq as Heq _.
    apply (cell_wrapped_inj x y yl yl xl xl') in Heq as [_ Heq];
      try assumption; try lia.
  - apply NoDup_seqZ.
Qed.

Lemma sprite_bit_0_or_1 r xl : sprite_bit r xl = 0 \/ sprite_bit r xl = 1.
Proof. unfold sprite_bit. destruct (_ =? _); auto. Qed.

(** X19: on a screen whose pixels are all 0, for a sprite of at most
    32 rows in that region: the first draw reports no collision; the
    second draw of the same sprite restores the dark screen and reports
    a collision exactly when some row of the sprite has a bit set. *)
Theorem WriteSprite_collides_on_second_draw g sprite x y :
  Pixels g = zeros 2048 ->
  0 <= x <= 120 -> 0 <= y ->
  y + Z.of_nat (length sprite) <= 2 * GraphicsHeight ->
  Z.of_nat (length sprite) <= GraphicsHeight ->
  exists g1 collision2,
    Gfx.WriteSprite sprite x y g = Returns false g1 /\
    Gfx.WriteSprite sprite x y g1 = Returns collision2 g /\
    (collision2 = true <->
     exists (i : nat) r xl,
       sprite !! i = Some r /\ 0 <= xl < 8 /\ sprite_bit r xl = 1).
Proof.
  intros Hdark Hx Hy Hn Hn32.
  assert (Hlen : length (Pixels g) = 2048%nat) by (rewrite Hdark; reflexivity).
  destruct (WriteSprite_folds g sprite x y Hx Hy Hn) as (st & Hst & Hrun).
  set (us := sprite_cells sprite x y (seqZ 0 (Z.of_nat (length sprite)))) in *.
  pose proof (sprite_cells_NoDup sprite x y _ Hx Hy Hn Hn32) as Hnd. fold us in Hnd.
  assert (Hin : cells_within 2048 us).
  { apply sprite_cells_within; try assumption. apply rows_in_grid; assumption. }
  assert (Hdark_at : forall u, u ∈ us -> Pixels g !!! u.1 = 0).
  { intros u Hu. rewrite Hdark. apply lookup_total_replicate_2.
    exact (proj1 (Forall_forall _ _) Hin u Hu). }
  assert (Hc1 : st.2 = false).
  { destruct st.2 eqn:E; [|reflexivity]. rewrite Hst in E.
    apply foldl_xor_pixel_collision in E as [E|(u & Hu & Hpx)]; [discriminate| |exact Hnd].
    rewrite Hdark_at in Hpx by exact Hu. discriminate. }
  destruct (WriteSprite_folds (set_Pixels st.1 g) sprite x y Hx Hy Hn)
    as (st2 & Hst2 & Hrun2).
  fold us in Hst2. cbn [Pixels set_Pixels] in Hst2, Hrun2.
  assert (Hpx1 : st.1 = foldl xor_at (Pixels g) us).
  { rewrite Hst. apply fst_foldl_xor_pixel. }
  exists (set_Pixels st.1 g), st2.2. split; [rewrite <- Hc1; exact Hrun|]. split.
  - rewrite Hrun2. f_equal. rewrite Hst2, fst_foldl_xor_pixel, Hpx1.
    rewrite foldl_xor_at_twice by (rewrite Hlen; exact Hin).
    destruct g; reflexivity.
  - rewrite Hst2. rewrite foldl_xor_pixel_collision by exact Hnd. split.
    + intros [E|(u & Hu & Hpx)]; [discriminate|].
      rewrite Hpx1, foldl_xor_at_lookup in Hpx;
        [|exact Hnd|exact Hu|rewrite Hlen; exact (proj1 (Forall_forall _ _) Hin u Hu)].
      rewrite Hdark_at in Hpx by exact Hu. cbn in Hpx.
      apply sprite_cells_elem in Hu as (yl & xl & Hyl & Hxl & ->).
      apply elem_of_seqZ in Hyl. cbn [snd] in Hpx.
      exists (Z.to_nat yl), (sprite !!! Z.to_nat yl), xl.
      split; [|split; [exact Hxl | exact Hpx]].
      apply list_lookup_lookup_total_lt. lia.
    + intros (i & r & xl & Hi & Hxl & Hbit). right.
      pose proof (lookup_lt_Some _ _ _ Hi) as Hlt.
      set (u := (cell (wrap_once GraphicsHeight (y + Z.of_nat i))
                      (wrap_once GraphicsWidth (x + xl)), sprite_bit r xl)).
      assert (Hu : u ∈ us).
      { apply sprite_cells_elem. exists (Z.of_nat i), xl.
        split; [apply elem_of_seqZ; lia|]. split; [exact Hxl|].
        rewrite Nat2Z.id, (list_lookup_total_correct _ _ _ Hi). reflexivity. }
      exists u. split; [exact Hu|].
      rewrite Hpx1, foldl_xor_at_lookup;
        [|exact Hnd|exact Hu|rewrite Hlen; exact (proj1 (Forall_forall _ _) Hin u Hu)].
      rewrite Hdark_at by exact Hu. cbn. exact Hbit.
Qed.


(** X12: opcode FX33 with I + 2 inside memory writes three decimal
    digits at I, I+1 and I+2 (hundreds at most 2, tens and ones at most
    9) that make up the byte V[X], changes no other memory cell, no
    register and not I, and advances the program counter by 2. *)
Theorem dispatch_FX33_stores_decimal_digits w opcode c :
  class_of opcode = 0xF000 ->
  Z.land opcode 0x00FF = 0x33 ->
  length (Memory c) = 4096%nat ->
  0 <= I c -> I c + 2 < 4096 ->
  0 <= V c !!! Z.to_nat (Z.shiftr (Z.land opcode 0x0F00) 8) < 256 ->
  let vx := V c !!! Z.to_nat (Z.shiftr (Z.land opcode 0x0F00) 8) in
  let i := Z.to_nat (I c) in
  exists c',
    dispatch w opcode c = Returns None c' /\
    ProgramCounter c' = uint16 (ProgramCounter c + 2) /\
    V c' = V c /\ I c' = I c /\
    (forall a : nat, a <> i -> a <> S i -> a <> S (S i) ->
       Memory c' !! a = Memory c !! a) /\
    exists h t o,
      Memory c' !! i = Some h /\ Memory c' !! S i = Some t /\
      Memory c' !! S (S i) = Some o /\
      0 <= h <= 2 /\ 0 <= t <= 9 /\ 0 <= o <= 9 /\
      vx = 100 * h + 10 * t + o.
Proof.
  intros Hc Hl Hlen HI0 HI Hvx vx i. enter_class Hc. rewrite Hl. cbn [Z.eqb Pos.eqb].
  pose proof (nibble_x opcode) as Hx.
  run_go.
  in_range (Z.shiftr (Z.land opcode 0x0F00) 8).
  replace ((0 <=? I c) && (I c <? 4096)) with true by blia.
  cbn [Z.leb Z.ltb Z.compare andb].
  rewrite (uint16_small (I c + 1)), (uint16_small (I c + 2)) by lia.
  replace ((0 <=? I c + 1) && (I c + 1 <? 4096)) with true by blia.
  replace ((0 <=? I c + 2) && (I c + 2 <? 4096)) with true by blia.
  fold vx. replace (Z.to_nat (I c + 1)) with (S i) by (unfold i; lia).
  replace (Z.to_nat (I c + 2)) with (S (S i)) by (unfold i; lia).
  fold i.
  eexists. split; [reflexivity|].
  cbn [ProgramCounter V I Memory set_ProgramCounter set_Memory].
  split; [reflexivity|]. split; [reflexivity|]. split; [reflexivity|].
  assert (Hi : (S (S i) < length (Memory c))%nat) by (unfold i; lia).
  split.
  - intros a H0 H1 H2. rewrite !list_lookup_insert_ne by congruence. reflexivity.
  - exists (vx / 100), ((vx / 10) mod 10), ((vx mod 100) mod 10).
    split; [|split; [|split]].
    + rewrite !list_lookup_insert_ne by lia. apply list_lookup_insert_eq. lia.
    + rewrite list_lookup_insert_ne by lia. apply list_lookup_insert_eq.
      rewrite length_insert. lia.
    + apply list_lookup_insert_eq. rewrite !length_insert. lia.
    + unfold vx in *.
      set (v := V c !!! Z.to_nat (Z.land opcode 3840 ≫ 8)) in *.
      pose proof (Z.div_mod v 100). pose proof (Z.mod_pos_bound v 100).
      pose proof (Z.div_mod v 10). pose proof (Z.mod_pos_bound v 10).
      pose proof (Z.div_mod (v / 10) 10). pose proof (Z.mod_pos_bound (v / 10) 10).
      pose proof (Z.div_mod (v mod 100) 10). pose proof (Z.mod_pos_bound (v mod 100) 10).
      assert (v / 10 = 10 * (v / 100) + (v mod 100) / 10).
      { replace v with ((v / 100) * 100 + v mod 100) at 1 by lia.
        replace ((v / 100) * 100 + v mod 100) with (v mod 100 + (10 * (v / 100)) * 10) by lia.
        rewrite Z.div_add by lia. lia. }
      assert (0 <= (v mod 100) / 10 < 10).
      { split; [apply Z.div_pos; lia | apply Z.div_lt_upper_bound; lia]. }
      assert (0 <= v / 100 <= 2).
      { split; [apply Z.div_pos; lia|]. 
        assert (v / 100 < 3) by (apply Z.div_lt_upper_bound; lia). lia. }
      lia.
Qed.


Lemma seqZ_split_length n pre i post :
  seqZ 0 n = pre ++ i :: post -> length pre = Z.to_nat i /\ 0 <= i < n.
Proof.
  intros Hsplit.
  assert (Hk : seqZ 0 n !! length pre = Some i).
  { rewrite Hsplit, lookup_app_r by lia. rewrite Nat.sub_diag. reflexivity. }
  apply lookup_seqZ in Hk. lia.
Qed.

Lemma store_loop c x :
  length (Memory c) = 4096%nat -> length (V c) = 16%nat ->
  0 <= x < 16 -> 0 <= I c -> I c + x < 4096 ->
  exists m,
    stored (I c) (V c) (Memory c) (Z.to_nat (x + 1)) m /\
    for_each (seqZ 0 (x + 1)) (fun i _ =>
      idx <- gets I ;;
      vi <- getV i ;;
      setMemory (uint16 (idx + uint16 i)) vi) tt c
    = Returns tt (set_Memory m c).
Proof.
  intros Hlen HlenV Hx HI0 HI.
  destruct (for_each_inv
    (fun pre (_ : unit) s =>
       exists m, s = set_Memory m c /\
                 stored (I c) (V c) (Memory c) (length pre) m)
    (fun i _ =>
      idx <- gets I ;;
      vi <- getV i ;;
      setMemory (uint16 (idx + uint16 i)) vi)
    (seqZ 0 (x + 1)) tt c) as ([] & s & Hrun & m & -> & Hm).
  - exists (Memory c). split; [destruct c; reflexivity|].
    split; [reflexivity|]. intros a. cbn [length].
    replace ((I c <=? Z.of_nat a) && (Z.of_nat a <? I c + Z.of_nat 0)) with false by blia.
    reflexivity.
  - intros pre i post [] s Hsplit (m & -> & Hlm & Hm).
    apply seqZ_split_length in Hsplit as [Hpre Hi].
    exists tt. eexists. split.
    + run_go. in_range i. rewrite (uint16_small i), (uint16_small (I c + i)) by lia.
      replace ((0 <=? I c + i) && (I c + i <? 4096)) with true by blia.
      reflexivity.
    + eexists. split; [reflexivity|]. cbn [Memory set_Memory V].
      rewrite Hpre in Hm. rewrite length_app, Hpre. cbn [length].
      split; [rewrite length_insert; exact Hlm|].
      intros a. destruct (decide (a = Z.to_nat (I c + i))) as [->|Hne].
      * rewrite list_lookup_insert_eq by lia.
        replace ((I c <=? Z.of_nat (Z.to_nat (I c + i))) &&
                 (Z.of_nat (Z.to_nat (I c + i)) <? I c + Z.of_nat (Z.to_nat i + 1)))
          with true by blia.
        replace (Z.to_nat (I c + i) - Z.to_nat (I c))%nat with (Z.to_nat i) by lia.
        symmetry. apply list_lookup_lookup_total_lt. lia.
      * rewrite list_lookup_insert_ne by congruence. rewrite Hm.
        destruct ((I c <=? Z.of_nat a) && (Z.of_nat a <? I c + Z.of_nat (Z.to_nat i))) eqn:E.
        -- apply andb_true_iff in E as [E1 E2]. apply Z.leb_le in E1. apply Z.ltb_lt in E2.
           replace ((I c <=? Z.of_nat a) && (Z.of_nat a <? I c + Z.of_nat (Z.to_nat i + 1)))
             with true by blia.
           reflexivity.
        -- apply andb_false_iff in E. rewrite Z.leb_gt, Z.ltb_ge in E.
           replace ((I c <=? Z.of_nat a) && (Z.of_nat a <? I c + Z.of_nat (Z.to_nat i + 1)))
             with false by blia.
           reflexivity.
  - exists m. rewrite length_seqZ in Hm. split; assumption.
Qed.

Lemma fill_loop c x :
  length (Memory c) = 4096%nat -> length (V c) = 16%nat ->
  0 <= x < 16 -> 0 <= I c -> I c + x < 4096 ->
  exists v,
    filled (I c) (Memory c) (V c) (Z.to_nat (x + 1)) v /\
    for_each (seqZ 0 (byte_ x + 1)) (fun i _ =>
      idx <- gets I ;;
      m <- getMemory (uint16 (idx + uint16 i)) ;;
      setV (uint16 i) m) tt c
    = Returns tt (set_V v c).
Proof.
  intros Hlen HlenV Hx HI0 HI.
  assert (Hbx : byte_ x = x) by (apply Z.mod_small; lia). rewrite Hbx.
  destruct (for_each_inv
    (fun pre (_ : unit) s =>
       exists v, s = set_V v c /\
                 filled (I c) (Memory c) (V c) (length pre) v)
    (fun i _ =>
      idx <- gets I ;;
      m <- getMemory (uint16 (idx + uint16 i)) ;;
      setV (uint16 i) m)
    (seqZ 0 (x + 1)) tt c) as ([] & s & Hrun & v & -> & Hv).
  - exists (V c). split; [destruct c; reflexivity|].
    split; [reflexivity|]. intros a. reflexivity.
  - intros pre i post [] s Hsplit (v & -> & Hlv & Hv).
    apply seqZ_split_length in Hsplit as [Hpre Hi].
    exists tt. eexists. split.
    + run_go. rewrite (uint16_small i), (uint16_small (I c + i)) by lia.
      replace ((0 <=? I c + i) && (I c + i <? 4096)) with true by blia.
      in_range i. reflexivity.
    + eexists. split; [reflexivity|]. cbn [Memory set_V V].
      rewrite length_app, Hpre. cbn [length]. rewrite Hpre in Hv.
      split; [rewrite length_insert; exact Hlv|].
      intros a. destruct (decide (a = Z.to_nat i)) as [->|Hne].
      * rewrite list_lookup_insert_eq by lia.
        replace (Z.to_nat i <? Z.to_nat i + 1)%nat with true
          by (symmetry; apply Nat.ltb_lt; lia).
        replace (Z.to_nat (I c) + Z.to_nat i)%nat with (Z.to_nat (I c + i)) by lia.
        symmetry. apply list_lookup_lookup_total_lt. lia.
      * rewrite list_lookup_insert_ne by congruence. rewrite Hv.
        destruct (a <? Z.to_nat i)%nat eqn:E.
        -- apply Nat.ltb_lt in E.
           replace (a <? Z.to_nat i + 1)%nat with true
             by (symmetry; apply Nat.ltb_lt; lia).
           reflexivity.
        -- apply Nat.ltb_ge in E.
           replace (a <? Z.to_nat i + 1)%nat with false
             by (symmetry; apply Nat.ltb_ge; lia).
           reflexivity.
  - exists v. rewrite length_seqZ in Hv. split; assumption.
Qed.


Lemma dispatch_FX55_stored w opcode c :
  class_of opcode = 0xF000 ->
  Z.land opcode 0x00FF = 0x55 ->
  length (Memory c) = 4096%nat -> length (V c) = 16%nat ->
  0 <= I c -> I c + Z.shiftr (Z.land opcode 0x0F00) 8 < 4096 ->
  exists m,
    stored (I c) (V c) (Memory c)
      (Z.to_nat (Z.shiftr (Z.land opcode 0x0F00) 8 + 1)) m /\
    dispatch w opcode c
    = Returns None (set_ProgramCounter (uint16 (ProgramCounter c + 2)) (set_Memory m c)).
Proof.
  intros Hc Hl Hlen HlenV HI0 HI.
  destruct (store_loop c _ Hlen HlenV (nibble_x opcode) HI0 HI) as (m & Hm & Hrun).
  exists m. split; [exact Hm|].
  enter_class Hc. rewrite Hl. cbn [Z.eqb Pos.eqb].
  unfold bind at 1. rewrite Hrun. reflexivity.
Qed.

Lemma dispatch_FX65_filled w opcode c :
  class_of opcode = 0xF000 ->
  Z.land opcode 0x00FF = 0x65 ->
  length (Memory c) = 4096%nat -> length (V c) = 16%nat ->
  0 <= I c -> I c + Z.shiftr (Z.land opcode 0x0F00) 8 < 4096 ->
  exists v,
    filled (I c) (Memory c) (V c)
      (Z.to_nat (Z.shiftr (Z.land opcode 0x0F00) 8 + 1)) v /\
    dispatch w opcode c
    = Returns None (set_ProgramCounter (uint16 (ProgramCounter c + 2)) (set_V v c)).
Proof.
  intros Hc Hl Hlen HlenV HI0 HI.
  destruct (fill_loop c _ Hlen HlenV (nibble_x opcode) HI0 HI) as (v & Hv & Hrun).
  exists v. split; [exact Hv|].
  enter_class Hc. rewrite Hl. cbn [Z.eqb Pos.eqb].
  unfold bind at 1. rewrite Hrun. reflexivity.
Qed.

(** X13: opcode FX55 with I + X inside memory copies V0..VX to
    memory[I .. I+X], leaves every other cell, the registers and I as
    they were, and advances the program counter by 2. *)
Theorem dispatch_FX55_stores_registers w opcode c :
  class_of opcode = 0xF000 ->
  Z.land opcode 0x00FF = 0x55 ->
  length (Memory c) = 4096%nat -> length (V c) = 16%nat ->
  0 <= I c -> I c + Z.shiftr (Z.land opcode 0x0F00) 8 < 4096 ->
  let x := Z.to_nat (Z.shiftr (Z.land opcode 0x0F00) 8) in
  let i := Z.to_nat (I c) in
  exists c',
    dispatch w opcode c = Returns None c' /\
    ProgramCounter c' = uint16 (ProgramCounter c + 2) /\
    V c' = V c /\ I c' = I c /\
    length (Memory c') = 4096%nat /\
    (forall k : nat, (k <= x)%nat -> Memory c' !! (i + k)%nat = V c !! k) /\
    (forall a : nat, (a < i \/ i + x < a)%nat -> Memory c' !! a = Memory c !! a).
Proof.
  intros Hc Hl Hlen HlenV HI0 HI x i.
  pose proof (nibble_x opcode) as Hx.
  destruct (dispatch_FX55_stored w opcode c Hc Hl Hlen HlenV HI0 HI)
    as (m & [Hlm Hm] & Hrun).
  eexists. split; [exact Hrun|]. cbn [ProgramCounter V I Memory set_ProgramCounter set_Memory].
  split; [reflexivity|]. split; [reflexivity|]. split; [reflexivity|].
  split; [rewrite Hlm; exact Hlen|]. split.
  - intros k Hk. rewrite Hm.
    replace ((I c <=? Z.of_nat (i + k)) &&
             (Z.of_nat (i + k) <? I c + Z.of_nat (Z.to_nat (Z.shiftr (Z.land opcode 0x0F00) 8 + 1))))
      with true by (unfold i, x in *; blia).
    f_equal. unfold i. lia.
  - intros a Ha. rewrite Hm.
    replace ((I c <=? Z.of_nat a) &&
             (Z.of_nat a <? I c + Z.of_nat (Z.to_nat (Z.shiftr (Z.land opcode 0x0F00) 8 + 1))))
      with false by (unfold i, x in *; blia).
    reflexivity.
Qed.

(** X14: opcode FX65 with I + X inside memory copies
    memory[I .. I+X] to V0..VX, leaves the registers above VX, the
    memory and I as they were, and advances the program counter by 2. *)
Theorem dispatch_FX65_fills_registers w opcode c :
  class_of opcode = 0xF000 ->
  Z.land opcode 0x00FF = 0x65 ->
  length (Memory c) = 4096%nat -> length (V c) = 16%nat ->
  0 <= I c -> I c + Z.shiftr (Z.land opcode 0x0F00) 8 < 4096 ->
  let x := Z.to_nat (Z.shiftr (Z.land opcode 0x0F00) 8) in
  let i := Z.to_nat (I c) in
  exists c',
    dispatch w opcode c = Returns None c' /\
    ProgramCounter c' = uint16 (ProgramCounter c + 2) /\
    Memory c' = Memory c /\ I c' = I c /\
    length (V c') = 16%nat /\
    (forall k : nat, (k <= x)%nat -> V c' !! k = Memory c !! (i + k)%nat) /\
    (forall k : nat, (x < k)%nat -> V c' !! k = V c !! k).
Proof.
  intros Hc Hl Hlen HlenV HI0 HI x i.
  pose proof (nibble_x opcode) as Hx.
  destruct (dispatch_FX65_filled w opcode c Hc Hl Hlen HlenV HI0 HI)
    as (v & [Hlv Hv] & Hrun).
  eexists. split; [exact Hrun|]. cbn [ProgramCounter V I Memory set_ProgramCounter set_V].
  split; [reflexivity|]. split; [reflexivity|]. split; [reflexivity|].
  split; [rewrite Hlv; exact HlenV|]. split.
  - intros k Hk. rewrite Hv.
    replace (k <? Z.to_nat (Z.shiftr (Z.land opcode 0x0F00) 8 + 1))%nat with true
      by (symmetry; apply Nat.ltb_lt; unfold x in Hk; lia).
    reflexivity.
  - intros k Hk. rewrite Hv.
    replace (k <? Z.to_nat (Z.shiftr (Z.land opcode 0x0F00) 8 + 1))%nat with false
      by (symmetry; apply Nat.ltb_ge; unfold x in Hk; lia).
    reflexivity.
Qed.

(** X15: storing V0..VX with FX55 and then filling V0..VX' with FX65
    for X' <= X, with I untouched in between, gives back the registers
    as they were before the store. *)
Theorem store_then_fill_keeps_registers w w' store fill c :
  class_of store = 0xF000 -> Z.land store 0x00FF = 0x55 ->
  class_of fill = 0xF000 -> Z.land fill 0x00FF = 0x65 ->
  Z.shiftr (Z.land fill 0x0F00) 8 <= Z.shiftr (Z.land store 0x0F00) 8 ->
  length (Memory c) = 4096%nat -> length (V c) = 16%nat ->
  0 <= I c -> I c + Z.shiftr (Z.land store 0x0F00) 8 < 4096 ->
  exists c1 c2,
    dispatch w store c = Returns None c1 /\
    dispatch w' fill c1 = Returns None c2 /\
    V c2 = V c /\ Memory c2 = Memory c1.
Proof.
  intros Hcs Hls Hcf Hlf Hle Hlen HlenV HI0 HI.
  pose proof (nibble_x store) as Hxs. pose proof (nibble_x fill) as Hxf.
  destruct (dispatch_FX55_stored w store c Hcs Hls Hlen HlenV HI0 HI)
    as (m & [Hlm Hm] & Hrun1).
  set (c1 := set_ProgramCounter (uint16 (ProgramCounter c + 2)) (set_Memory m c)) in *.
  destruct (dispatch_FX65_filled w' fill c1 Hcf Hlf) as (v & [Hlv Hv] & Hrun2);
    try (unfold c1; cbn; lia).
  exists c1. eexists. split; [exact Hrun1|]. split; [exact Hrun2|].
  cbn [V Memory set_ProgramCounter set_V]. split; [|reflexivity].
  apply list_eq. intros k. rewrite Hv. unfold c1. cbn [V Memory I set_ProgramCounter set_Memory].
  destruct (k <? Z.to_nat (Z.shiftr (Z.land fill 0x0F00) 8 + 1))%nat eqn:E; [|reflexivity].
  apply Nat.ltb_lt in E. rewrite Hm.
  replace ((I c <=? Z.of_nat (Z.to_nat (I c) + k)) &&
           (Z.of_nat (Z.to_nat (I c) + k)
            <? I c + Z.of_nat (Z.to_nat (Z.shiftr (Z.land store 0x0F00) 8 + 1))))
    with true by blia.
  f_equal. lia.
Qed.


Lemma lor_shifted_byte hi lo :
  0 <= hi < 256 -> 0 <= lo < 256 ->
  Z.lor (uint16 (Z.shiftl (uint16 hi) 8)) (uint16 lo) = 256 * hi + lo.
Proof.
  intros Hhi Hlo. rewrite (uint16_small hi), (uint16_small lo) by lia.
  rewrite Z.shiftl_mul_pow2 by lia. change (2 ^ 8) with 256.
  rewrite uint16_small by lia.
  assert (Hland : Z.land (hi * 256) lo = 0).
  { apply Z.bits_inj'. intros n Hn. rewrite Z.land_spec, Z.bits_0.
    destruct (Z.lt_ge_cases n 8) as [Hlt|Hge].
    - replace (hi * 256) with (hi * 2 ^ 8) by reflexivity.
      rewrite Z.mul_pow2_bits_low by lia. reflexivity.
    - rewrite (Z.bits_above_log2 lo n), andb_false_r; [reflexivity|lia|].
      destruct (Z.eq_dec lo 0) as [->|Hne]; [cbn; lia|].
      assert (Z.log2 lo < 8) by (apply Z.log2_lt_pow2; lia). lia. }
  rewrite <- Z.lxor_lor by exact Hland.
  rewrite <- Z.add_nocarry_lxor by exact Hland. lia.
Qed.

(** X4: with the program counter at most 4094 and bytes in memory,
    [decodeOp] returns 256 * memory[PC] + memory[PC+1], a 16-bit value,
    and leaves the machine as it was. *)
Theorem decodeOp_is_big_endian c :
  0 <= ProgramCounter c <= 4094 ->
  let hi := Memory c !!! Z.to_nat (ProgramCounter c) in
  let lo := Memory c !!! Z.to_nat (ProgramCounter c + 1) in
  0 <= hi < 256 -> 0 <= lo < 256 ->
  decodeOp c = Returns (256 * hi + lo) c /\ 0 <= 256 * hi + lo < 65536.
Proof.
  intros Hpc hi lo Hhi Hlo. split; [|lia].
  unfold decodeOp. run_go.
  replace ((0 <=? ProgramCounter c) && (ProgramCounter c <? 4096)) with true by blia.
  rewrite (uint16_small (ProgramCounter c + 1)) by lia.
  replace ((0 <=? ProgramCounter c + 1) && (ProgramCounter c + 1 <? 4096)) with true by blia.
  fold hi lo. rewrite lor_shifted_byte by assumption. reflexivity.
Qed.

(** X5: with the program counter at 4095 or beyond, the fetch indexes
    memory out of range: [decodeOp], [emulateCycle] and [Run] panic
    instead of returning an error. *)
Theorem fetch_past_memory_panics w evs c :
  4095 <= ProgramCounter c < 65536 ->
  exists p,
    decodeOp c = Panics p /\
    emulateCycle w c = Panics p /\
    Run (ClockTick w :: evs) c = Panics p.
Proof.
  intros Hpc.
  assert (Hd : exists p, decodeOp c = Panics p).
  { unfold decodeOp. run_go.
    destruct (decide (ProgramCounter c = 4095)) as [Heq|Hne].
    - rewrite Heq. cbn. eexists. reflexivity.
    - replace ((0 <=? ProgramCounter c) && (ProgramCounter c <? 4096)) with false by blia.
      eexists. reflexivity. }
  destruct Hd as (p & Hd). exists p. split; [exact Hd|].
  assert (He : emulateCycle w c = Panics p).
  { unfold emulateCycle. unfold bind at 1. rewrite Hd. reflexivity. }
  split; [exact He|]. cbn [Run]. unfold bind. rewrite He. reflexivity.
Qed.


(** X6: after [LoadBytes] of a program of at least two bytes into a
    machine whose program counter is 0x200, [decodeOp] returns the
    opcode made of the program's first two bytes. *)
Theorem LoadBytes_then_decodeOp c hi lo rest :
  length (Memory c) = 4096%nat ->
  ProgramCounter c = 0x200 ->
  0 <= hi < 256 -> 0 <= lo < 256 ->
  exists n r c',
    LoadBytes (hi :: lo :: rest) c = Returns (n, None, r) c' /\
    2 <= n /\
    decodeOp c' = Returns (256 * hi + lo) c'.
Proof.
  intros Hlen Hpc Hhi Hlo. unfold LoadBytes, Load.
  rewrite load_copies_the_minimum; [|exact Hlen|lia|cbn [length]; lia].
  set (n := Z.min (Z.of_nat (length (hi :: lo :: rest))) (4096 - 0x200)).
  assert (Hn : 2 <= n) by (unfold n; cbn [length]; lia).
  do 3 eexists. split; [reflexivity|]. split; [exact Hn|].
  set (mem' := take (Z.to_nat 0x200) (Memory c) ++ take (Z.to_nat n) (hi :: lo :: rest)
               ++ drop (Z.to_nat (0x200 + n)) (Memory c)).
  assert (Htake : take (Z.to_nat n) (hi :: lo :: rest)
                  = hi :: lo :: take (Z.to_nat n - 2) rest).
  { replace (Z.to_nat n) with (S (S (Z.to_nat n - 2))) at 1 by lia. reflexivity. }
  assert (H0 : mem' !!! 0x200%nat = hi).
  { unfold mem'. rewrite Htake. apply list_lookup_total_correct.
    rewrite lookup_app_r by (rewrite length_take; lia).
    rewrite length_take, Hlen. reflexivity. }
  assert (H1 : mem' !!! 0x201%nat = lo).
  { unfold mem'. rewrite Htake. apply list_lookup_total_correct.
    rewrite lookup_app_r by (rewrite length_take; lia).
    rewrite length_take, Hlen. reflexivity. }
  pose proof (decodeOp_is_big_endian (set_Memory mem' c)) as Hd.
  cbn [ProgramCounter Memory set_Memory] in Hd. rewrite Hpc in Hd.
  change (Z.to_nat 0x200) with 0x200%nat in Hd.
  change (Z.to_nat (0x200 + 1)) with 0x201%nat in Hd.
  rewrite H0, H1 in Hd. apply Hd; lia.
Qed.

(** X16: a draw opcode with N = 0 and I at most 4096 draws nothing:
    the graphics buffer is unchanged, VF becomes 0 and the program
    counter advances by 2. With I beyond 4096 the empty slice of memory
    is out of range and [dispatch] panics. *)
Theorem dispatch_DXY0_draws_nothing w opcode c :
  class_of opcode = 0xD000 ->
  Z.land opcode 0x000F = 0 ->
  0 <= I c < 65536 ->
  (I c <= 4096 ->
     exists c',
       dispatch w opcode c = Returns None c' /\
       Graphics_ c' = Graphics_ c /\
       V c' = <[15%nat := 0]> (V c) /\
       ProgramCounter c' = uint16 (ProgramCounter c + 2))
  /\ (4096 < I c ->
      dispatch w opcode c = Panics (SliceOutOfRange (I c) (I c) 4096)).
Proof.
  intros Hc Hl HI.
  pose proof (nibble_x opcode) as Hx. pose proof (nibble_y opcode) as Hy.
  split; intros Hb; enter_class Hc; rewrite Hl; run_go;
    in_range (Z.shiftr (Z.land opcode 0x0F00) 8);
    in_range (Z.shiftr (Z.land opcode 0x00F0) 4);
    cbn [Z.leb Z.ltb Z.compare andb];
    rewrite Z.add_0_r, (uint16_small (I c)) by lia.
  - replace ((0 <=? I c) && (I c <=? I c) && (I c <=? 4096)) with true by blia.
    rewrite Z.sub_diag. change (Z.to_nat 0) with 0%nat. rewrite take_0.
    unfold Gfx.WriteSprite. cbn [length Z.of_nat]. rewrite seqZ_nil by lia.
    cbn [for_each]. unfold Gfx.Draw, Gfx.display. run_go.
    change (15 <? 16) with true. cbv beta iota. run_go.
    destruct (Display_ (Graphics_ c)); eexists; (split; [reflexivity|]);
      cbn [Graphics_ V ProgramCounter]; (split; [|split; reflexivity]);
      destruct (Graphics_ c); reflexivity.
  - replace ((0 <=? I c) && (I c <=? I c) && (I c <=? 4096)) with false by blia.
    reflexivity.
Qed.


Lemma keyMap_some ch k :
  keyMap ch = Some k ->
  0 <= k <= 15 /\ ch <> escapeKey /\
  forall ch', keyMap ch' = Some k -> ch' = ch.
Proof.
  unfold keyMap, escapeKey. intros H.
  repeat split_if H; try discriminate H; injection H as <-;
    repeat match goal with E : (_ =? _) = true |- _ => apply Z.eqb_eq in E; subst end;
    (split; [lia|]); (split; [lia|]);
    intros ch' H'; repeat split_if H'; try discriminate H';
    match goal with E : (ch' =? _) = true |- _ => apply Z.eqb_eq in E; exact E end.
Qed.

(** X20: when [TermboxKeypad] returns a key without error, the key is
    one of 0..15, the character was not the escape key, and no other
    character gives the same key. *)
Theorem TermboxKeypad_reads_one_of_16_keys w k :
  TermboxKeypad w = (k, None) ->
  0 <= k <= 15 /\
  PollEvent w <> escapeKey /\
  forall w', TermboxKeypad w' = (k, None) -> PollEvent w' = PollEvent w.
Proof.
  unfold TermboxKeypad. intros H.
  destruct (PollEvent w =? escapeKey) eqn:E; [discriminate H|].
  destruct (keyMap (PollEvent w)) as [k0|] eqn:Ek; [|discriminate H].
  injection H as <-.
  destruct (keyMap_some _ _ Ek) as (Hr & Hne & Hinj).
  split; [exact Hr|]. split; [exact Hne|].
  intros w' H'.
  destruct (PollEvent w' =? escapeKey) eqn:E'; [discriminate H'|].
  destruct (keyMap (PollEvent w')) as [k1|] eqn:Ek'; [|discriminate H'].
  injection H' as <-. apply Hinj. exact Ek'.
Qed.

Lemma TermboxKeypad_reads_one_of_16_keys_witness :
  TermboxKeypad {| PollEvent := 113; Intn255 := 0 |} = (4, None) /\ 0 <= 4 <= 15.
Proof.
  split; [reflexivity|].
  apply (TermboxKeypad_reads_one_of_16_keys {| PollEvent := 113; Intn255 := 0 |} 4).
  reflexivity.
Defined.

(** X21: when [TermboxKeypad] returns an error, the key is 0; the
    error is the quit sentinel when the character is the escape key, and
    otherwise an `unknown key` error for a character outside the key
    map. *)
Theorem TermboxKeypad_quits_only_on_escape w k e :
  TermboxKeypad w = (k, Some e) ->
  k = 0 /\
  (PollEvent w = escapeKey -> e = ErrQuit) /\
  (PollEvent w <> escapeKey ->
     e = errorString ("unknown key: " +:+ pretty (PollEvent w)) /\
     keyMap (PollEvent w) = None).
Proof.
  unfold TermboxKeypad. intros H.
  destruct (PollEvent w =? escapeKey) eqn:E.
  - injection H as <- <-. apply Z.eqb_eq in E.
    split; [reflexivity|]. split; [reflexivity|]. intros Hne. contradiction.
  - apply Z.eqb_neq in E.
    destruct (keyMap (PollEvent w)) as [k0|] eqn:Ek; [discriminate H|].
    injection H as <- <-. split; [reflexivity|].
    split; [intros Heq; contradiction|]. intros _. split; reflexivity.
Qed.

(** X22: on a machine without a keypad, every key-reading opcode
    fails with the wrapped error of the null keypad, and the run loop
    exits with that error. *)
Theorem key_opcodes_fail_without_keypad w evs c opcode :
  Keypad_ c = None ->
  decodeOp c = Returns opcode c ->
  reads_key opcode = true ->
  exists c',
    dispatch w opcode c
    = Returns (Some (errorString
        "chip8: unable to get key from keypad: null keypad not usable")) c' /\
    Run (ClockTick w :: evs) c
    = Returns (Exited (Some (errorString
        "chip8: unable to get key from keypad: null keypad not usable"))) c'.
Proof.
  intros Hk Hd Hop.
  assert (Hkp : keypad_of c w = (0, Some (errorString "null keypad not usable"))).
  { unfold keypad_of. rewrite Hk. reflexivity. }
  destruct (dispatch_reads_key w opcode c _ _ Hop Hkp) as (c' & Hdis).
  exists c'. split; [exact Hdis|].
  exact (Run_tick_error w evs c opcode _ c'
           (emulateCycle_error w c opcode _ c' Hd Hdis)).
Qed.

(** X23: when the stop channel is closed while the loop waits after
    any number of completed cycles, [Run] returns nil, the machine is as
    the last cycle left it, and later events are not looked at. *)
Theorem stop_ends_the_run pre evs c0 c :
  Run pre c0 = Returns Waiting c ->
  Run (pre ++ StopClosed :: evs) c0 = Returns (Exited None) c.
Proof. intros H. rewrite (Run_app pre _ c0 c H). reflexivity. Qed.

Ltac bool_hyps :=
  repeat match goal with
         | E : (_ <? _) = true |- _ => apply Z.ltb_lt in E
         | E : (_ <? _) = false |- _ => apply Z.ltb_ge in E
         | E : (_ =? _) = true |- _ => apply Z.eqb_eq in E
         | E : (_ =? _) = false |- _ => apply Z.eqb_neq in E
         end.

(** X24: when dispatch of the fetched opcode succeeds, the cycle
    lowers each timer by one unless it is 0 (a timer never wraps),
    prints the cue exactly when the sound timer is 1 after dispatch, and
    changes nothing else of what dispatch left. *)
Theorem successful_cycle_decrements_timers w c opcode c1 :
  decodeOp c = Returns opcode c ->
  dispatch w opcode c = Returns None c1 ->
  0 <= DelayTimer c1 < 256 -> 0 <= SoundTimer c1 < 256 ->
  exists c2,
    emulateCycle w c = Returns (opcode, None) c2 /\
    DelayTimer c2 = Z.max 0 (DelayTimer c1 - 1) /\
    SoundTimer c2 = Z.max 0 (SoundTimer c1 - 1) /\
    Stdout c2 = Stdout c1 ++ (if SoundTimer c1 =? 1 then ["7"%string] else []) /\
    (Memory c2, V c2, I c2, ProgramCounter c2, Stack c2, StackPointer c2, Graphics_ c2)
    = (Memory c1, V c1, I c1, ProgramCounter c1, Stack c1, StackPointer c1, Graphics_ c1).
Proof.
  intros Hd Hdis Hdt Hst. unfold emulateCycle.
  unfold bind at 1. rewrite Hd. unfold bind at 1. rewrite Hdis.
  unfold fmt_Print. run_go.
  destruct (0 <? DelayTimer c1) eqn:Ed; run_go;
    destruct (0 <? SoundTimer c1) eqn:Es; run_go;
    destruct (SoundTimer c1 =? 1) eqn:E1; run_go;
    (eexists; split; [reflexivity|]);
    run_go; bool_hyps; unfold byte_; rewrite ?Z.mod_small by lia; rewrite ?app_nil_r;
    try lia; (split; [lia|]); (split; [lia|]); (split; reflexivity).
Qed.


(** X11: opcode 9XY0 compares V[X] with V[Y]: the program counter
    advances by 4 when they differ and by 2 when they are equal. *)
Theorem dispatch_9XY0_compares_X_with_Y w opcode c :
  class_of opcode = 0x9000 ->
  Z.land opcode 0x000F = 0 ->
  let x := Z.to_nat (Z.shiftr (Z.land opcode 0x0F00) 8) in
  let y := Z.to_nat (Z.shiftr (Z.land opcode 0x00F0) 4) in
  dispatch w opcode c =
    Returns None
      (set_ProgramCounter
         (if V c !!! x =? V c !!! y
          then uint16 (ProgramCounter c + 2)
          else uint16 (uint16 (ProgramCounter c + 2) + 2)) c).
Proof.
  intros Hc Hl x y. enter_class Hc. rewrite Hl. cbn [Z.eqb Pos.eqb].
  pose proof (nibble_x opcode) as Hx. pose proof (nibble_y opcode) as Hy.
  run_go.
  in_range (Z.shiftr (Z.land opcode 0x0F00) 8).
  in_range (Z.shiftr (Z.land opcode 0x00F0) 4).
  cbn [Z.leb Z.ltb Z.compare andb]. fold x y.
  destruct (_ =? _); reflexivity.
Qed.

(** X9: opcode 8XY6 ignores Y. For X other than F it halves V[X] and
    sets VF to the bit shifted out; for X = F the flag is written first
    and then halved, so VF ends as 0. Other registers are unchanged. *)
Theorem dispatch_8XY6_shifts_right w opcode c :
  class_of opcode = 0x8000 ->
  Z.land opcode 0x000F = 0x6 ->
  length (V c) = 16%nat ->
  0 <= V c !!! Z.to_nat (Z.shiftr (Z.land opcode 0x0F00) 8) ->
  let x := Z.to_nat (Z.shiftr (Z.land opcode 0x0F00) 8) in
  exists c',
    dispatch w opcode c = Returns None c' /\
    ProgramCounter c' = uint16 (ProgramCounter c + 2) /\
    (forall k : nat, k <> x -> k <> 15%nat -> V c' !! k = V c !! k) /\
    (x <> 15%nat ->
       V c' !! x = Some (V c !!! x / 2) /\
       V c' !! 15%nat = Some (V c !!! x mod 2)) /\
    (x = 15%nat -> V c' !! 15%nat = Some 0).
Proof.
  intros Hc Hl Hlen Hvx x. enter_class Hc. rewrite Hl. cbn [Z.eqb Pos.eqb].
  pose proof (nibble_x opcode) as Hx.
  run_go.
  in_range (Z.shiftr (Z.land opcode 0x0F00) 8).
  cbn [Z.leb Z.ltb Z.compare andb]. fold x.
  assert (Hx16 : (x < 16)%nat) by (unfold x; lia).
  assert (Hbit : (if Z.land (V c !!! x) 1 =? 1 then 1 else 0) = V c !!! x mod 2).
  { change 1 with (Z.ones 1) at 1. rewrite Z.land_ones by lia. change (2 ^ 1) with 2.
    pose proof (Z.mod_pos_bound (V c !!! x) 2).
    destruct (V c !!! x mod 2 =? 1) eqn:E; bool_hyps; lia. }
  rewrite Hbit.
  change (Z.to_nat 15) with 15%nat.
  eexists. split; [reflexivity|]. run_go. split; [reflexivity|].
  split; [|split].
  - intros k Hkx Hk15. rewrite !list_lookup_insert_ne by congruence. reflexivity.
  - intros Hne. rewrite list_lookup_total_insert_ne by congruence. split.
    + apply list_lookup_insert_eq. rewrite length_insert. lia.
    + rewrite list_lookup_insert_ne by congruence.
      apply list_lookup_insert_eq. lia.
  - intros Heq. rewrite Heq in *. rewrite list_lookup_total_insert_eq by lia.
    rewrite list_lookup_insert_eq by (rewrite length_insert; lia).
    f_equal. pose proof (Z.mod_pos_bound (V c !!! 15%nat) 2).
    apply Z.div_small. lia.
Qed.

Lemma top_bit_of_byte v :
  0 <= v < 256 -> (if Z.land v 0x80 =? 0x80 then 1 else 0) = v / 128.
Proof.
  intros Hv.
  assert (Hall : forallb (fun v => (if Z.land v 0x80 =? 0x80 then 1 else 0) =? v / 128)
                   (seqZ 0 256) = true) by (vm_compute; reflexivity).
  rewrite forallb_forall in Hall. apply Z.eqb_eq, Hall.
  apply list_elem_of_In, elem_of_seqZ. lia.
Qed.

(** X10: opcode 8XYE for X other than F and a byte V[X] doubles V[X]
    modulo 256 and sets VF to the top bit V[X] had; other registers are
    unchanged. *)
Theorem dispatch_8XYE_shifts_left w opcode c :
  class_of opcode = 0x8000 ->
  Z.land opcode 0x000F = 0xE ->
  length (V c) = 16%nat ->
  0 <= V c !!! Z.to_nat (Z.shiftr (Z.land opcode 0x0F00) 8) < 256 ->
  let x := Z.to_nat (Z.shiftr (Z.land opcode 0x0F00) 8) in
  x <> 15%nat ->
  exists c',
    dispatch w opcode c = Returns None c' /\
    ProgramCounter c' = uint16 (ProgramCounter c + 2) /\
    (forall k : nat, k <> x -> k <> 15%nat -> V c' !! k = V c !! k) /\
    V c' !! x = Some ((2 * V c !!! x) mod 256) /\
    V c' !! 15%nat = Some (V c !!! x / 128).
Proof.
  intros Hc Hl Hlen Hvx x Hne. enter_class Hc. rewrite Hl. cbn [Z.eqb Pos.eqb].
  pose proof (nibble_x opcode) as Hx.
  run_go.
  in_range (Z.shiftr (Z.land opcode 0x0F00) 8).
  cbn [Z.leb Z.ltb Z.compare andb]. fold x in Hvx |- *.
  assert (Hx16 : (x < 16)%nat) by (unfold x; lia).
  rewrite (top_bit_of_byte (V c !!! x)) by exact Hvx.
  change (Z.to_nat 15) with 15%nat.
  eexists. split; [reflexivity|]. run_go. split; [reflexivity|].
  split; [|split].
  - intros k Hkx Hk15. rewrite !list_lookup_insert_ne by congruence. reflexivity.
  - rewrite list_lookup_total_insert_ne by congruence.
    rewrite list_lookup_insert_eq by (rewrite length_insert; lia).
    unfold byte_. f_equal. f_equal. lia.
  - rewrite list_lookup_insert_ne by congruence.
    apply list_lookup_insert_eq. lia.
Qed.

(** X2: when [dispatch] returns an error, memory, registers, I, stack,
    stack pointer, graphics, timers and output are as before, the
    program counter is as before or advanced by 2, and the error is
    [UnknownOpcode] of this opcode, the quit sentinel or an error
    string. *)
Theorem dispatch_error_leaves_the_machine w opcode c e c' :
  dispatch w opcode c = Returns (Some e) c' ->
  (Memory c', V c', I c', Stack c', StackPointer c', Graphics_ c',
   DelayTimer c', SoundTimer c', Stdout c')
  = (Memory c, V c, I c, Stack c, StackPointer c, Graphics_ c,
     DelayTimer c, SoundTimer c, Stdout c)
  /\ (ProgramCounter c' = ProgramCounter c
      \/ ProgramCounter c' = uint16 (ProgramCounter c + 2))
  /\ (e = UnknownOpcode opcode \/ e = ErrQuit \/ exists s, e = errorString s).
Proof.
  intros H. apply dispatch_error in H as [[-> ->]|[Hc (b & e0 & _ & ->)]].
  - split; [reflexivity|]. split; [left; reflexivity|]. left. reflexivity.
  - split; [destruct Hc as [-> | ->]; reflexivity|].
    split; [destruct Hc as [-> | ->]; [left|right]; reflexivity|].
    right. unfold surfaced, KeypadFailure.
    destruct e0; cbn [is_ErrQuit]; eauto.
Qed.

(** X3: when the keypad returns an error, EX9E and EXA1 have already
    advanced the program counter by 2 when they fail, and FX0A fails
    with the machine untouched. *)
Theorem key_opcode_failure_and_program_counter w opcode c b e :
  reads_key opcode = true ->
  keypad_of c w = (b, Some e) ->
  dispatch w opcode c
  = Returns (Some (surfaced e))
      (if class_of opcode =? 0xE000
       then set_ProgramCounter (uint16 (ProgramCounter c + 2)) c
       else c).
Proof.
  intros Hop Hk. unfold reads_key, class_of in *. cbv beta zeta delta [dispatch].
  apply orb_true_iff in Hop as [Hop|Hop]; apply andb_true_iff in Hop as [Hc Hl].
  - apply Z.eqb_eq in Hc. rewrite Hc. cbn [Z.eqb Pos.eqb].
    apply orb_true_iff in Hl as [Hl|Hl]; apply Z.eqb_eq in Hl; rewrite Hl;
      cbn [Z.eqb Pos.eqb];
      unfold bind at 1; cbn [addPC modify]; unfold bind at 1;
      rewrite getKey_eq; unfold keypad_of in *;
      cbn [Keypad_ set_ProgramCounter]; rewrite Hk; reflexivity.
  - apply Z.eqb_eq in Hc. rewrite Hc. cbn [Z.eqb Pos.eqb].
    apply Z.eqb_eq in Hl. rewrite Hl. cbn [Z.eqb Pos.eqb].
    unfold bind at 1. rewrite getKey_eq, Hk. reflexivity.
Qed.

(** ** Examples for the properties above *)

(** X1: an opcode of no documented pattern outside the 0x8 class,
    fetched at the program counter, is refused: [dispatch] returns
    [UnknownOpcode] with that opcode, the machine is left untouched, and
    the run loop exits with the error. *)
Theorem unknown_opcode_stops_the_run w evs c opcode :
  decodeOp c = Returns opcode c ->
  documented opcode = false ->
  class_of opcode <> 0x8000 ->
  dispatch w opcode c = Returns (Some (UnknownOpcode opcode)) c /\
  emulateCycle w c = Returns (opcode, Some (UnknownOpcode opcode)) c /\
  Run (ClockTick w :: evs) c = Returns (Exited (Some (UnknownOpcode opcode))) c.
Proof.
  intros Hd Hdoc Hclass.
  pose proof (dispatch_undocumented_elsewhere w opcode c Hdoc Hclass) as Hdis.
  pose proof (emulateCycle_error w c opcode _ c Hd Hdis) as Hcyc.
  split; [exact Hdis|]. split; [exact Hcyc|].
  exact (Run_tick_error w evs c opcode _ c Hcyc).
Qed.

(** A new machine has opcode 0x0000 at 0x200. *)
Lemma unknown_opcode_stops_the_run_witness :
  dispatch idle 0 NewCPU = Returns (Some (UnknownOpcode 0)) NewCPU /\
  emulateCycle idle NewCPU = Returns (0, Some (UnknownOpcode 0)) NewCPU /\
  Run [ClockTick idle] NewCPU = Returns (Exited (Some (UnknownOpcode 0))) NewCPU.
Proof.
  apply (unknown_opcode_stops_the_run idle [] NewCPU 0);
    [reflexivity | reflexivity | discriminate].
Defined.

(** EX9E without a keypad: an error, and the program counter at 0x202. *)
Lemma dispatch_error_leaves_the_machine_witness :
  exists e c',
    dispatch idle 0xE09E NewCPU = Returns (Some e) c' /\
    V c' = V NewCPU /\ ProgramCounter c' = 0x202.
Proof.
  do 2 eexists. split; [vm_compute; reflexivity|].
  match goal with
  | |- V ?c' = _ /\ _ =>
      destruct (dispatch_error_leaves_the_machine idle 0xE09E NewCPU _ c' eq_refl)
        as (Hsame & _ & _)
  end.
  split; [congruence | reflexivity].
Defined.

(** Without a keypad: E09E fails at 0x202, F00A fails at 0x200. *)
Lemma key_opcode_failure_and_program_counter_witness :
  exists e c1 c2,
    dispatch idle 0xE09E NewCPU = Returns (Some e) c1 /\
    ProgramCounter c1 = 0x202 /\
    dispatch idle 0xF00A NewCPU = Returns (Some e) c2 /\
    ProgramCounter c2 = 0x200.
Proof.
  do 3 eexists.
  split; [apply (key_opcode_failure_and_program_counter idle 0xE09E NewCPU 0
                   (errorString "null keypad not usable")); reflexivity|].
  split; [reflexivity|].
  split; [apply (key_opcode_failure_and_program_counter idle 0xF00A NewCPU 0
                   (errorString "null keypad not usable")); reflexivity|].
  reflexivity.
Defined.

(** The program F00A at 0x200 decodes to 0xF00A. *)
Lemma decodeOp_is_big_endian_witness :
  decodeOp keyless = Returns 0xF00A keyless /\ 0 <= 0xF00A < 65536.
Proof.
  apply (decodeOp_is_big_endian keyless);
    (split; [vm_compute; discriminate | vm_compute; reflexivity || (vm_compute; discriminate)]).
Defined.

Lemma fetch_past_memory_panics_witness :
  exists p,
    decodeOp at_the_edge = Panics p /\
    emulateCycle idle at_the_edge = Panics p /\
    Run [ClockTick idle] at_the_edge = Panics p.
Proof.
  apply (fetch_past_memory_panics idle [] at_the_edge).
  split; [vm_compute; discriminate | vm_compute; reflexivity].
Defined.

Lemma LoadBytes_then_decodeOp_witness :
  exists n r c',
    LoadBytes [0xC0; 0xFE] NewCPU = Returns (n, None, r) c' /\
    2 <= n /\
    decodeOp c' = Returns (256 * 0xC0 + 0xFE) c'.
Proof.
  apply (LoadBytes_then_decodeOp NewCPU 0xC0 0xFE []); [reflexivity | reflexivity | lia | lia].
Defined.

(** 7 - 7: the flag is 0 and V0 becomes 0. *)
Lemma dispatch_8XY5_subtracts_witness :
  exists c',
    dispatch idle 0x8015 equal_operands = Returns None c' /\
    V c' !! 0%nat = Some 0 /\ V c' !! 15%nat = Some 0.
Proof.
  destruct (dispatch_8XY5_subtracts idle 0x8015 equal_operands eq_refl eq_refl)
    as (Hrun & _ & _).
  eexists. split; [exact Hrun|]. split; reflexivity.
Defined.

(** 0x81 shifted right: V0 = 0x40 and VF = 1. *)
Lemma dispatch_8XY6_shifts_right_witness :
  exists c',
    dispatch idle 0x8006 shift_example = Returns None c' /\
    V c' !! 0%nat = Some 0x40 /\ V c' !! 15%nat = Some 1.
Proof.
  destruct (dispatch_8XY6_shifts_right idle 0x8006 shift_example eq_refl eq_refl eq_refl)
    as (c' & Hrun & _ & _ & Hx & _).
  { vm_compute. discriminate. }
  exists c'. split; [exact Hrun|]. apply Hx. vm_compute. discriminate.
Defined.

(** 0x81 shifted left: V0 = 0x02 and VF = 1. *)
Lemma dispatch_8XYE_shifts_left_witness :
  exists c',
    dispatch idle 0x800E shift_example = Returns None c' /\
    V c' !! 0%nat = Some 0x02 /\ V c' !! 15%nat = Some 1.
Proof.
  destruct (dispatch_8XYE_shifts_left idle 0x800E shift_example eq_refl eq_refl eq_refl)
    as (c' & Hrun & _ & _ & Hx & Hf).
  { split; [vm_compute; discriminate | vm_compute; reflexivity]. }
  { vm_compute. discriminate. }
  exists c'. split; [exact Hrun|]. split; [exact Hx | exact Hf].
Defined.

(** 9120 with V1 = V2: no skip. *)
Lemma dispatch_9XY0_compares_X_with_Y_witness :
  dispatch idle 0x9120 v1_equals_v2
  = Returns None (set_ProgramCounter 0x202 v1_equals_v2).
Proof.
  apply (dispatch_9XY0_compares_X_with_Y idle 0x9120 v1_equals_v2); reflexivity.
Defined.

(** V0 = 200 at I = 0x300: the digits 2, 0, 0. *)
Lemma dispatch_FX33_stores_decimal_digits_witness :
  exists c',
    dispatch idle 0xF033 add_example = Returns None c' /\
    ProgramCounter c' = 0x202.
Proof.
  destruct (dispatch_FX33_stores_decimal_digits idle 0xF033 add_example
              eq_refl eq_refl eq_refl) as (c' & Hrun & Hpc & _).
  { vm_compute. discriminate. }
  { vm_compute. reflexivity. }
  { split; [vm_compute; discriminate | vm_compute; reflexivity]. }
  exists c'. split; [exact Hrun | exact Hpc].
Defined.

Lemma dispatch_FX55_stores_registers_witness :
  exists c',
    dispatch idle 0xF155 add_example = Returns None c' /\
    Memory c' !! 0x300%nat = Some 200 /\ Memory c' !! 0x301%nat = Some 100.
Proof.
  destruct (dispatch_FX55_stores_registers idle 0xF155 add_example
              eq_refl eq_refl eq_refl eq_refl)
    as (c' & Hrun & _ & _ & _ & _ & Hst & _).
  { vm_compute. discriminate. }
  { vm_compute. reflexivity. }
  exists c'. split; [exact Hrun|]. split.
  - apply (Hst 0%nat). vm_compute. lia.
  - apply (Hst 1%nat). vm_compute. lia.
Defined.

Lemma dispatch_FX65_fills_registers_witness :
  exists c',
    dispatch idle 0xF165 (set_I 0 add_example) = Returns None c' /\
    V c' !! 0%nat = Some 0xF0 /\ V c' !! 1%nat = Some 0x90.
Proof.
  destruct (dispatch_FX65_fills_registers idle 0xF165 (set_I 0 add_example)
              eq_refl eq_refl eq_refl eq_refl)
    as (c' & Hrun & _ & _ & _ & _ & Hv & _).
  { vm_compute. discriminate. }
  { vm_compute. reflexivity. }
  exists c'. split; [exact Hrun|]. split.
  - apply (Hv 0%nat). vm_compute. lia.
  - apply (Hv 1%nat). vm_compute. lia.
Defined.

Lemma store_then_fill_keeps_registers_witness :
  exists c1 c2,
    dispatch idle 0xF155 add_example = Returns None c1 /\
    dispatch idle 0xF165 c1 = Returns None c2 /\
    V c2 = V add_example /\ Memory c2 = Memory c1.
Proof.
  apply (store_then_fill_keeps_registers idle idle 0xF155 0xF165 add_example);
    try reflexivity; vm_compute; discriminate.
Defined.

Lemma dispatch_DXY0_draws_nothing_witness :
  exists c',
    dispatch idle 0xD010 NewCPU = Returns None c' /\
    Graphics_ c' = Graphics_ NewCPU /\
    V c' = <[15%nat := 0]> (V NewCPU) /\
    ProgramCounter c' = 0x202.
Proof.
  destruct (dispatch_DXY0_draws_nothing idle 0xD010 NewCPU eq_refl eq_refl) as [Hok _].
  { split; [vm_compute; discriminate | vm_compute; reflexivity]. }
  apply Hok. vm_compute. discriminate.
Defined.

(** A full row drawn at column 60 wraps to columns 0..3. *)
Lemma WriteSprite_stays_in_grid_witness :
  exists collision g',
    Gfx.WriteSprite [0xFF] 60 0 dark = Returns collision g' /\
    length (Pixels g') = 2048%nat.
Proof.
  destruct (WriteSprite_stays_in_grid dark [0xFF] 60 0) as (b & g' & Hrun & Hlen & _);
    [lia | lia | vm_compute; discriminate |].
  exists b, g'. split; [exact Hrun | exact Hlen].
Defined.

Lemma WriteSprite_twice_restores_witness :
  exists collision1 g1 collision2,
    Gfx.WriteSprite glyph 62 31 lit = Returns collision1 g1 /\
    Gfx.WriteSprite glyph 62 31 g1 = Returns collision2 lit.
Proof.
  apply (WriteSprite_twice_restores lit glyph 62 31);
    [reflexivity | lia | lia | vm_compute; discriminate].
Defined.

Lemma WriteSprite_collides_on_second_draw_witness :
  exists g1 collision2,
    Gfx.WriteSprite glyph 62 31 dark = Returns false g1 /\
    Gfx.WriteSprite glyph 62 31 g1 = Returns collision2 dark.
Proof.
  destruct (WriteSprite_collides_on_second_draw dark glyph 62 31)
    as (g1 & b & H1 & H2 & _);
    [reflexivity | lia | lia | vm_compute; discriminate | vm_compute; discriminate |].
  exists g1, b. split; [exact H1 | exact H2].
Defined.

Lemma TermboxKeypad_quits_only_on_escape_witness :
  TermboxKeypad escape_pressed = (0, Some ErrQuit) /\ 0 = 0.
Proof.
  split; [reflexivity|].
  apply (TermboxKeypad_quits_only_on_escape escape_pressed 0 ErrQuit). reflexivity.
Defined.

Lemma key_opcodes_fail_without_keypad_witness :
  exists c',
    dispatch idle 0xF00A keyless
    = Returns (Some (errorString
        "chip8: unable to get key from keypad: null keypad not usable")) c' /\
    Run [ClockTick idle] keyless
    = Returns (Exited (Some (errorString
        "chip8: unable to get key from keypad: null keypad not usable"))) c'.
Proof.
  apply (key_opcodes_fail_without_keypad idle [] keyless 0xF00A); reflexivity.
Defined.

(** One cycle of the spinning program, then the stop. *)
Lemma stop_ends_the_run_witness :
  exists c,
    Run [ClockTick idle] spinning = Returns Waiting c /\
    Run ([ClockTick idle] ++ StopClosed :: [ClockTick idle]) spinning
    = Returns (Exited None) c.
Proof.
  eexists. split; [vm_compute; reflexivity|].
  apply (stop_ends_the_run [ClockTick idle]). vm_compute. reflexivity.
Defined.

(** The spinning program: timers 9 and 1 become 8 and 0, with the cue. *)
Lemma successful_cycle_decrements_timers_witness :
  exists c2,
    emulateCycle idle spinning = Returns (0x1200, None) c2 /\
    DelayTimer c2 = 8 /\ SoundTimer c2 = 0 /\ Stdout c2 = ["7"%string].
Proof.
  destruct (successful_cycle_decrements_timers idle spinning 0x1200 spinning)
    as (c2 & Hrun & Hdt & Hst & Hout & _);
    [reflexivity | vm_compute; reflexivity
     | split; [vm_compute; discriminate | vm_compute; reflexivity]
     | split; [vm_compute; discriminate | vm_compute; reflexivity] |].
  exists c2. split; [exact Hrun|]. split; [exact Hdt|]. split; [exact Hst | exact Hout].
Defined.

(** X25: on a machine whose first 80 bytes of memory are the font (as
    [NewCPU] leaves them), opcode FX29 with a digit V[X] of 0..15 sets I
    to 5 * V[X], and the five bytes of memory from I on are the five
    bytes of that digit's glyph in [FONT]; registers and memory are
    unchanged and the program counter advances by 2. *)
Theorem dispatch_FX29_points_at_the_glyph w opcode c :
  class_of opcode = 0xF000 ->
  Z.land opcode 0x00FF = 0x29 ->
  take 80 (Memory c) = FONT ->
  0 <= V c !!! Z.to_nat (Z.shiftr (Z.land opcode 0x0F00) 8) <= 15 ->
  let d := V c !!! Z.to_nat (Z.shiftr (Z.land opcode 0x0F00) 8) in
  exists c',
    dispatch w opcode c = Returns None c' /\
    I c' = 5 * d /\
    ProgramCounter c' = uint16 (ProgramCounter c + 2) /\
    V c' = V c /\ Memory c' = Memory c /\
    forall j : nat, (j < 5)%nat ->
      Memory c' !! (Z.to_nat (I c') + j)%nat = FONT !! (5 * Z.to_nat d + j)%nat.
Proof.
  intros Hc Hl Hfont Hd d. enter_class Hc. rewrite Hl. cbn [Z.eqb Pos.eqb].
  pose proof (nibble_x opcode) as Hx.
  run_go.
  in_range (Z.shiftr (Z.land opcode 0x0F00) 8).
  cbn [Z.leb Z.ltb Z.compare andb]. fold d in Hd |- *.
  rewrite (uint16_small d), (uint16_small 5), (uint16_small (d * 5)) by lia.
  eexists. split; [reflexivity|]. run_go.
  split; [lia|]. split; [reflexivity|]. split; [reflexivity|]. split; [reflexivity|].
  intros j Hj. rewrite <- Hfont.
  replace (Z.to_nat (d * 5) + j)%nat with (5 * Z.to_nat d + j)%nat by lia.
  symmetry. apply lookup_take_lt. lia.
Qed.

(** The new machine with V0 = 7: I = 35, where the glyph of 7 starts. *)
Lemma dispatch_FX29_points_at_the_glyph_witness :
  exists c',
    dispatch idle 0xF029 equal_operands = Returns None c' /\
    I c' = 35 /\ Memory c' !! 35%nat = Some 0xF0 /\ Memory c' !! 36%nat = Some 0x10.
Proof.
  destruct (dispatch_FX29_points_at_the_glyph idle 0xF029 equal_operands eq_refl eq_refl)
    as (c' & Hrun & HI & _ & _ & _ & Hmem).
  { vm_compute. reflexivity. }
  { split; vm_compute; discriminate. }
  exists c'. split; [exact Hrun|]. split; [exact HI|].
  rewrite HI in Hmem. split.
  - apply (Hmem 0%nat). lia.
  - apply (Hmem 1%nat). lia.
Defined.
